(** * flux-fp8-setup: a verification model of [setup.py]

    [setup.py] is a provisioning script: it clones a repository, installs
    packages with pip, downloads model files with [huggingface-cli] and
    launches the cloned application.  Everything it does is an effect on the
    outside world, so the script is embedded as a state-and-exception monad
    over an explicit [World]: the file system, the working directory, the
    Python dictionaries that hold environments, and the trace of what the
    process did.  Child processes are an oracle of the section. *)

From Stdlib Require Import ZArith Lia Ascii String.
From stdpp Require Import gmap strings list fin_maps pretty.

Set Warnings "-register-all".

Local Open Scope string_scope.
Local Open Scope list_scope.
Local Open Scope Z_scope.

(** ** Paths and the file system *)

(** A directory tree.  Directory entries are keyed by name, so a tree is
    well formed by construction: whatever exists has existing parents. *)
Inductive node : Type :=
  | File
  | Dir (entries : gmap string node).

(** A path already resolved against the working directory: its components,
    from the root. *)
Abbreviation path := (list string).

Fixpoint find (n : node) (p : path) : option node :=
  match p with
  | [] => Some n
  | c :: p' =>
      match n with
      | File => None
      | Dir es => match es !! c with
                  | Some n' => find n' p'
                  | None => None
                  end
      end
  end.

Definition path_exists (n : node) (p : path) : bool :=
  match find n p with Some _ => true | None => false end.

Definition is_dir (n : node) (p : path) : bool :=
  match find n p with Some (Dir _) => true | _ => false end.

(** What [os.makedirs(p, exist_ok=True)] leaves behind: every missing
    directory on the way to [p] is created, an existing directory is kept as
    it is, and a regular file on the way (or at [p]) makes the call fail. *)
Fixpoint mkdirs (n : node) (p : path) {struct p} : option node :=
  match n with
  | File => None
  | Dir es =>
      match p with
      | [] => Some n
      | c :: p' =>
          match mkdirs (default (Dir ∅) (es !! c)) p' with
          | Some n' => Some (Dir (<[c := n']> es))
          | None => None
          end
      end
  end.

(** Splitting a path string at its slashes; empty components (a leading,
    doubled or trailing slash) carry no name. *)
Fixpoint split_slash (acc : string) (s : string) : list string :=
  match s with
  | EmptyString => [acc]
  | String c s' =>
      if Ascii.eqb c "/"%char then acc :: split_slash "" s'
      else split_slash (acc +:+ String c "") s'
  end.

Definition components (s : string) : path :=
  filter (λ c, c ≠ "") (split_slash "" s).

Definition is_absolute (s : string) : bool :=
  match s with
  | String c _ => Ascii.eqb c "/"%char
  | EmptyString => false
  end.

(** A path string as the kernel resolves it for a process whose working
    directory is [cwd]. *)
Definition resolve (cwd : path) (s : string) : path :=
  if is_absolute s then components s else cwd ++ components s.

Fixpoint ends_with_slash (s : string) : bool :=
  match s with
  | EmptyString => false
  | String c EmptyString => Ascii.eqb c "/"%char
  | String _ s' => ends_with_slash s'
  end.

(** [os.path.join(a, b)] of posixpath, for two arguments. *)
Definition os_path_join (a b : string) : string :=
  if is_absolute b then b
  else if bool_decide (a = "") || ends_with_slash a then a +:+ b
  else a +:+ "/" +:+ b.

(** [' '.join(command)] *)
Fixpoint join (sep : string) (l : list string) : string :=
  match l with
  | [] => ""
  | [x] => x
  | x :: l' => x +:+ sep +:+ join sep l'
  end.

(** ** The world the script runs in *)

(** An environment: what [os.environ] and the [env=] argument of
    [subprocess.run] hold. *)
Abbreviation env := (gmap string string).

(** How an attempt to run a child process ends: the child ran and exited
    with a return code, or it could not be started at all (executable not
    found, not executable, ...), which [subprocess.run] reports as an
    [OSError] carrying the system's message. *)
Inductive proc_result : Type :=
  | Exited (returncode : Z)
  | SpawnFailed (msg : string).

(** The arguments of one [subprocess.run] call, the [env=] dictionary read
    at the time of the call. *)
Record call : Type := Call {
  argv : list string;
  env_arg : option env;
  cwd_arg : option string;
}.

(** The state of the parent process at the moment of a call. *)
Record snapshot : Type := Snapshot {
  at_fs : node;
  at_cwd : path;
  at_environ : env;
}.

(** What the process does, in the order it does it. *)
Inductive event : Type :=
  | EPrint (s : string)
  | EMakedirs (name : string) (ok : bool)
  | EChdir (name : string) (ok : bool)
  | ESpawn (c : call) (s : snapshot) (r : proc_result).

(** Python dictionaries are objects on a heap and variables hold references
    to them; [os.environ] is the dictionary at reference [0]. *)
Abbreviation ref := nat.

Record World : Type := mkWorld {
  fs : node;
  cwd : path;
  heap : list env;
  trace : list event;
}.

Definition os_environ : ref := 0%nat.

Definition environ (w : World) : env := default ∅ (heap w !! os_environ).

Definition set_fs (n : node) (w : World) : World :=
  mkWorld n (cwd w) (heap w) (trace w).

Definition set_cwd (p : path) (w : World) : World :=
  mkWorld (fs w) p (heap w) (trace w).

Definition set_heap (h : list env) (w : World) : World :=
  mkWorld (fs w) (cwd w) h (trace w).

Definition emit (e : event) (w : World) : World :=
  mkWorld (fs w) (cwd w) (heap w) (trace w ++ [e]).

Definition snap (w : World) : snapshot :=
  Snapshot (fs w) (cwd w) (environ w).

(** The world of a freshly started interpreter. *)
Definition boot (root : node) (dir : path) (vars : env) : World :=
  mkWorld root dir [vars] [].

(** ** Exceptions and the monad of the script *)

(** The exceptions the script can meet.  [SystemExit] derives from
    [BaseException] only; the other two derive from [Exception]. *)
Inductive exn : Type :=
  | SystemExit (code : Z)
  | CalledProcessError (cmd : list string) (returncode : Z)
  | OSError (msg : string).

Definition is_Exception (e : exn) : bool :=
  match e with
  | SystemExit _ => false
  | CalledProcessError _ _ | OSError _ => true
  end.

Definition is_CalledProcessError (e : exn) : bool :=
  match e with
  | CalledProcessError _ _ => true
  | SystemExit _ | OSError _ => false
  end.

Inductive result (A : Type) : Type :=
  | Ok (a : A)
  | Raise (e : exn).
Arguments Ok {A} a.
Arguments Raise {A} e.

Definition M (A : Type) : Type := World → result A * World.

#[export] Instance M_ret : MRet M := λ A a w, (Ok a, w).

#[export] Instance M_bind : MBind M := λ A B k m w,
  match m w with
  | (Ok a, w') => k a w'
  | (Raise e, w') => (Raise e, w')
  end.

Definition raise {A} (e : exn) : M A := λ w, (Raise e, w).

(** [try: body / except <classes> as e: handler e] *)
Definition try_except {A} (body : M A) (classes : exn → bool)
    (handler : exn → M A) : M A := λ w,
  match body w with
  | (Ok a, w') => (Ok a, w')
  | (Raise e, w') => if classes e then handler e w' else (Raise e, w')
  end.

(** [for x in xs: body x] *)
Fixpoint for_each {A} (xs : list A) (body : A → M unit) : M unit :=
  match xs with
  | [] => mret tt
  | x :: xs' => body x ;; for_each xs' body
  end.

(** The status the interpreter exits with. *)
Definition exit_status {A} (r : result A) : Z :=
  match r with
  | Ok _ => 0
  | Raise (SystemExit code) => code
  | Raise _ => 1
  end.

(** ** The interpreter's primitives *)

Definition nl : string := String (ascii_of_nat 10) "".

(** The text of an [OSError] as Python prints it, for a plain file name. *)
Definition os_error_str (errno : string) (what name : string) : string :=
  "[Errno " +:+ errno +:+ "] " +:+ what +:+ ": '" +:+ name +:+ "'".

Definition print (s : string) : M unit := λ w, (Ok tt, emit (EPrint s) w).

Definition sys_exit {A} (code : Z) : M A := raise (SystemExit code).

Definition os_path_exists (name : string) : M bool := λ w,
  (Ok (path_exists (fs w) (resolve (cwd w) name)), w).

(** [os.makedirs(name, exist_ok=True)] *)
Definition os_makedirs (name : string) : M unit := λ w,
  let p := resolve (cwd w) name in
  match mkdirs (fs w) p with
  | Some root' => (Ok tt, emit (EMakedirs name true) (set_fs root' w))
  | None =>
      let msg := if path_exists (fs w) p
                 then os_error_str "17" "File exists" name
                 else os_error_str "20" "Not a directory" name in
      (Raise (OSError msg), emit (EMakedirs name false) w)
  end.

Definition os_chdir (name : string) : M unit := λ w,
  let p := resolve (cwd w) name in
  if is_dir (fs w) p then (Ok tt, emit (EChdir name true) (set_cwd p w))
  else
    let msg := if path_exists (fs w) p
               then os_error_str "20" "Not a directory" name
               else os_error_str "2" "No such file or directory" name in
    (Raise (OSError msg), emit (EChdir name false) w).

(** [os.environ.copy()]: a new dictionary with the same items. *)
Definition os_environ_copy : M ref := λ w,
  (Ok (length (heap w)), set_heap (heap w ++ [environ w]) w).

(** [d[k] = v] *)
Definition dict_setitem (d : ref) (k v : string) : M unit := λ w,
  (Ok tt, set_heap (alter (λ m : env, <[k := v]> m) d (heap w)) w).

(** ** Sample worlds *)

Module Sample.

Definition python : string := "/usr/bin/python3".

Definition still_clock : World → unit := λ _, tt.

Definition no_duration : unit → unit → string := λ _ _, "0.00".

Definition error_str (cmd : list string) (returncode : Z) : string :=
  "Command '" +:+ join " " cmd +:+ "' returned non-zero exit status "
  +:+ pretty returncode +:+ ".".

(** Every command exits with code 0 and touches nothing. *)
Definition quiet_spawn : World → call → proc_result * node :=
  λ w _, (Exited 0, fs w).

(** No command can be started. *)
Definition missing_spawn : World → call → proc_result * node :=
  λ w c, (SpawnFailed ("[Errno 2] No such file or directory: '"
                       +:+ default "" (head (argv c)) +:+ "'"), fs w).

(** [plant n p x]: the tree [n] with [x] put at [p]. *)
Fixpoint plant (n : node) (p : path) (x : node) : node :=
  match p with
  | [] => x
  | c :: p' =>
      let es := match n with Dir es => es | File => ∅ end in
      Dir (<[c := plant (default (Dir ∅) (es !! c)) p' x]> es)
  end.

Definition repo_tree : node :=
  Dir (<["requirements.txt" := File]> (<["main_gr.py" := File]> ∅)).

(** Every command exits with code 0, and [git clone] delivers the
    repository. *)
Definition cloning_spawn : World → call → proc_result * node :=
  λ w c,
    if bool_decide (argv c = ["git"; "clone";
                              "https://github.com/miike-ai/flux-fp8-api.git"])
    then (Exited 0, plant (fs w) (resolve (cwd w) "flux-fp8-api") repo_tree)
    else (Exited 0, fs w).

(** As [cloning_spawn], but the download of the decoder weights exits
    with code 1. *)
Definition flaky_spawn : World → call → proc_result * node :=
  λ w c,
    if bool_decide ("flux-vae-bf16.safetensors" ∈ argv c) then (Exited 1, fs w)
    else cloning_spawn w c.

Definition empty_world : World := boot (Dir ∅) ["home"; "user"] ∅.

(** A clock that moves on by one tick with every event of the process, and
    the duration in whole ticks. *)
Definition event_clock : World → nat := λ w, length (trace w).

Definition ticks : nat → nat → string := λ t0 t1, pretty (t1 - t0)%nat.

End Sample.

Import Sample.

(** The spec's Command Runner: on a failure of either kind it reports the
    failure message and ends the process with status 1. *)
Definition reports_and_exits (out : result unit * World) (command : list string)
    : Prop :=
  out.1 = Raise (SystemExit 1) ∧
  EPrint ("Command failed: " +:+ join " " command) ∈ trace out.2.

Section Script.

(** The outside of the process: which interpreter runs the script, what a
    child process does (how it ends and the file system it leaves), the
    clock, and two pieces of text formatting done by the Python library. *)
Variable sys_executable : string.
Variable spawn : World → call → proc_result * node.
Variable Time : Type.
Variable clock : World → Time.
(** [f"{end_time - start_time:.2f}"] *)
Variable format_duration : Time → Time → string.
(** [str(e)] of a [CalledProcessError] *)
Variable CalledProcessError_str : list string → Z → string.

Definition str (e : exn) : string :=
  match e with
  | SystemExit code => pretty code
  | CalledProcessError cmd returncode => CalledProcessError_str cmd returncode
  | OSError msg => msg
  end.

Definition time_time : M Time := λ w, (Ok (clock w), w).

(** [subprocess.run(command, env=env, cwd=cwd, check=True)]: the call
    returns once the child has ended, with the file system the child leaves.
    A child that could not be started leaves the file system as it was. *)
Definition subprocess_run (command : list string) (env : option ref)
    (cwd : option string) : M unit := λ w,
  let c := Call command (d ← env; heap w !! d) cwd in
  match spawn w c with
  | (Exited returncode, root') =>
      let w' := emit (ESpawn c (snap w) (Exited returncode)) (set_fs root' w) in
      if bool_decide (returncode = 0) then (Ok tt, w')
      else (Raise (CalledProcessError command returncode), w')
  | (SpawnFailed msg, _) =>
      (Raise (OSError msg), emit (ESpawn c (snap w) (SpawnFailed msg)) w)
  end.

(** ** The script *)

Definition run_command (command : list string) (env : option ref)
    (cwd : option string) : M unit :=
  try_except
    (print ("Running command: " +:+ join " " command) ;;
     subprocess_run command env cwd)
    is_CalledProcessError
    (λ e,
       print ("Command failed: " +:+ join " " command) ;;
       print ("Error: " +:+ str e) ;;
       sys_exit 1).

Definition install_dependencies : M unit :=
  print "Installing dependencies..." ;;
  run_command [sys_executable; "-m"; "pip"; "install"; "huggingface_hub[hf_transfer]"]
    None None ;;
  run_command [sys_executable; "-m"; "pip"; "install"; "gradio"] None None ;;
  let requirements_file := os_path_join "flux-fp8-api" "requirements.txt" in
  found ← os_path_exists requirements_file;
  if found : bool then
    run_command [sys_executable; "-m"; "pip"; "install"; "-r"; requirements_file]
      None None
  else
    print ("Requirements file not found: " +:+ requirements_file).

Definition download_with_huggingface_cli (repo_id filename dest_dir : string)
    : M unit :=
  print ("Downloading " +:+ repo_id +:+ "/" +:+ filename +:+ " to " +:+ dest_dir
         +:+ " using huggingface-cli...") ;;
  env ← os_environ_copy;
  dict_setitem env "HF_HUB_ENABLE_HF_TRANSFER" "1" ;;
  dict_setitem env "HF_HUB_DISABLE_SSL_VERIFY" "1" ;;
  run_command
    ["huggingface-cli"; "download"; repo_id; filename; "--local-dir"; dest_dir]
    (Some env) None ;;
  print ("Downloaded " +:+ filename +:+ " successfully to " +:+ dest_dir +:+ ".").

(** A file map is a dictionary literal; [file_map.items()] yields its
    items in the order they are written. *)
Definition setup_files (file_map : list (string * (string * string)))
    (dest_folder : string) : M unit :=
  os_makedirs dest_folder ;;
  for_each file_map (λ '(filename, (repo_id, filename_in_repo)),
    let dest_path := os_path_join dest_folder filename in
    download_with_huggingface_cli repo_id filename_in_repo dest_folder).

Definition t5_files : list (string * (string * string)) :=
  [ ("model.safetensors", ("city96/t5-v1_1-xxl-encoder-bf16", "model.safetensors"));
    ("config.json", ("city96/t5-v1_1-xxl-encoder-bf16", "config.json"));
    ("special_tokens_map.json",
      ("city96/t5-v1_1-xxl-encoder-bf16", "special_tokens_map.json"));
    ("spiece.model", ("city96/t5-v1_1-xxl-encoder-bf16", "spiece.model"));
    ("tokenizer_config.json",
      ("city96/t5-v1_1-xxl-encoder-bf16", "tokenizer_config.json")) ].

Definition setup_t5_files (dest_folder : string) : M unit :=
  print "Setting up T5 encoder files..." ;;
  setup_files t5_files dest_folder.

Definition model_files : list (string * (string * string)) :=
  [ ("flux1-schnell-fp8-e4m3fn.safetensors",
      ("Kijai/flux-fp8", "flux1-schnell-fp8-e4m3fn.safetensors")) ].

Definition setup_model_files (dest_folder : string) : M unit :=
  print "Setting up model files..." ;;
  setup_files model_files dest_folder.

Definition encoder_files : list (string * (string * string)) :=
  [ ("flux-vae-bf16.safetensors", ("Kijai/flux-fp8", "flux-vae-bf16.safetensors")) ].

Definition setup_encoder_files (dest_folder : string) : M unit :=
  print "Setting up encoder files..." ;;
  setup_files encoder_files dest_folder.

Definition repo_url : string := "https://github.com/miike-ai/flux-fp8-api.git".
Definition repo_name : string := "flux-fp8-api".

Definition clone_flux_repository : M unit :=
  found ← os_path_exists repo_name;
  if negb found then
    print ("Cloning repository from " +:+ repo_url +:+ "...") ;;
    run_command ["git"; "clone"; repo_url] None None
  else
    print ("Repository " +:+ repo_name +:+ " already exists. Skipping clone.").

Definition run_main_script (repo_folder : string) : M unit :=
  print ("Changing directory to " +:+ repo_folder +:+ "...") ;;
  os_chdir repo_folder ;;
  print "Running main_gr.py..." ;;
  run_command [sys_executable; "main_gr.py"] None None.

(** The body of the [try] of the main block. *)
Definition provision : M unit :=
  clone_flux_repository ;;
  let flux_folder := "flux-fp8-api" in
  install_dependencies ;;
  setup_model_files flux_folder ;;
  setup_encoder_files flux_folder ;;
  let t5_folder := os_path_join flux_folder "t5" in
  setup_t5_files t5_folder ;;
  run_main_script flux_folder.

(** [if __name__ == "__main__":] *)
Definition main : M unit :=
  print "Starting setup process..." ;;
  start_time ← time_time;
  try_except provision is_Exception
    (λ e,
       print ("An unexpected error occurred: " +:+ str e) ;;
       sys_exit 1) ;;
  end_time ← time_time;
  let duration := format_duration start_time end_time in
  print (nl +:+ "Process completed in " +:+ duration +:+ " seconds.").

(** ** What a trace says *)

(** The two messages that report a failure. *)
Definition failure_report (s : string) : bool :=
  String.prefix "Command failed: " s.

Definition unexpected_report (s : string) : bool :=
  String.prefix "An unexpected error occurred: " s.

(** An event that shows nothing going wrong. *)
Definition calm_event (e : event) : bool :=
  match e with
  | EPrint s => negb (failure_report s) && negb (unexpected_report s)
  | EMakedirs _ ok | EChdir _ ok => ok
  | ESpawn _ _ (Exited returncode) => bool_decide (returncode = 0)
  | ESpawn _ _ (SpawnFailed _) => false
  end.

Definition calm (tr : list event) : Prop := Forall (λ e, calm_event e = true) tr.

(** The event of an operating-system call that failed with message [msg]. *)
Definition os_failure (e : event) (msg : string) : Prop :=
  match e with
  | ESpawn _ _ (SpawnFailed m) => m = msg
  | EMakedirs _ false | EChdir _ false => True
  | _ => False
  end.

(** The shape of the trace a step of the script leaves, by how it ends. *)
Definition behaves {A} (r : result A) (tr : list event) : Prop :=
  match r with
  | Ok _ => calm tr
  | Raise (SystemExit code) =>
      code = 1 ∧
      ∃ pre c s returncode,
        returncode ≠ 0 ∧ calm pre ∧
        tr = pre ++ [ESpawn c s (Exited returncode);
                     EPrint ("Command failed: " +:+ join " " (argv c));
                     EPrint ("Error: " +:+ CalledProcessError_str (argv c) returncode)]
  | Raise (OSError msg) =>
      ∃ pre e, calm pre ∧ tr = pre ++ [e] ∧ os_failure e msg
  | Raise (CalledProcessError _ _) => False
  end.

Definition steady {A} (m : M A) : Prop :=
  ∀ w, calm (trace w) → behaves (m w).1 (trace (m w).2).

(** Is the event a line of output? *)
Definition is_print (e : event) : bool :=
  match e with EPrint _ => true | _ => false end.

(** How a whole run ends, and the trace it leaves in each case. *)
Inductive verdict : result unit → list event → Prop :=
  | finished pre t0 t1 :
      calm pre →
      verdict (Ok tt)
        (pre ++ [EPrint (nl +:+ "Process completed in " +:+ format_duration t0 t1
                         +:+ " seconds.")])
  | command_failed pre c s returncode :
      calm pre → returncode ≠ 0 →
      verdict (Raise (SystemExit 1))
        (pre ++ [ESpawn c s (Exited returncode);
                 EPrint ("Command failed: " +:+ join " " (argv c));
                 EPrint ("Error: " +:+ CalledProcessError_str (argv c) returncode)])
  | unexpected pre e msg :
      calm pre → os_failure e msg →
      verdict (Raise (SystemExit 1))
        (pre ++ [e; EPrint ("An unexpected error occurred: " +:+ msg)]).

Definition only_prints (tr : list event) : Prop :=
  Forall (λ e, is_print e = true) tr.

(** The environment [download_with_huggingface_cli] builds for the child. *)
Definition download_env (vars : env) : env :=
  <["HF_HUB_DISABLE_SSL_VERIFY" := "1"]> (<["HF_HUB_ENABLE_HF_TRANSFER" := "1"]> vars).

Definition download_command (repo_id filename dest_dir : string) : list string :=
  ["huggingface-cli"; "download"; repo_id; filename; "--local-dir"; dest_dir].

(** The new part of a trace, and a property of every child process in it. *)
Definition on_spawn (Q : call → snapshot → proc_result → Prop) (e : event) : Prop :=
  match e with
  | ESpawn c s r => Q c s r
  | _ => True
  end.

Definition adds (Q : call → snapshot → proc_result → Prop) (w w' : World) : Prop :=
  ∃ d, trace w' = trace w ++ d ∧ Forall (on_spawn Q) d.

(** The steps of a run: its trace without the output and without the
    state of the process at each call. *)
Inductive step : Type :=
  | SRun (command : list string) (returncode : option Z)
  | SMakedirs (name : string) (ok : bool)
  | SChdir (name : string) (ok : bool).

Definition step_of (e : event) : option step :=
  match e with
  | EPrint _ => None
  | EMakedirs name ok => Some (SMakedirs name ok)
  | EChdir name ok => Some (SChdir name ok)
  | ESpawn c _ (Exited returncode) => Some (SRun (argv c) (Some returncode))
  | ESpawn c _ (SpawnFailed _) => Some (SRun (argv c) None)
  end.

Definition outline (tr : list event) : list step := omap step_of tr.

(** The cloned repository is in place under the working directory [dir]:
    its requirements file exists, and no regular file sits where the [t5]
    directory goes. *)
Definition repo_ready (n : node) (dir : path) : Prop :=
  path_exists n (resolve dir (os_path_join "flux-fp8-api" "requirements.txt")) = true ∧
  find n (resolve dir (os_path_join "flux-fp8-api" "t5")) ≠ Some File.

Definition leads (steps : list step) (w w' : World) : Prop :=
  cwd w' = cwd w ∧ outline (trace w') = outline (trace w) ++ steps.

Definition download_step (dest_folder : string)
    (item : string * (string * string)) : step :=
  SRun (download_command item.2.1 item.2.2 dest_folder) (Some 0).

(** The steps of a run with no prior state where everything goes well. *)
Definition fresh_run_steps : list step :=
  [ SRun ["git"; "clone"; "https://github.com/miike-ai/flux-fp8-api.git"] (Some 0);
    SRun [sys_executable; "-m"; "pip"; "install"; "huggingface_hub[hf_transfer]"]
      (Some 0);
    SRun [sys_executable; "-m"; "pip"; "install"; "gradio"] (Some 0);
    SRun [sys_executable; "-m"; "pip"; "install"; "-r";
          "flux-fp8-api/requirements.txt"] (Some 0);
    SMakedirs "flux-fp8-api" true;
    SRun ["huggingface-cli"; "download"; "Kijai/flux-fp8";
          "flux1-schnell-fp8-e4m3fn.safetensors"; "--local-dir"; "flux-fp8-api"]
      (Some 0);
    SMakedirs "flux-fp8-api" true;
    SRun ["huggingface-cli"; "download"; "Kijai/flux-fp8";
          "flux-vae-bf16.safetensors"; "--local-dir"; "flux-fp8-api"] (Some 0);
    SMakedirs "flux-fp8-api/t5" true;
    SRun ["huggingface-cli"; "download"; "city96/t5-v1_1-xxl-encoder-bf16";
          "model.safetensors"; "--local-dir"; "flux-fp8-api/t5"] (Some 0);
    SRun ["huggingface-cli"; "download"; "city96/t5-v1_1-xxl-encoder-bf16";
          "config.json"; "--local-dir"; "flux-fp8-api/t5"] (Some 0);
    SRun ["huggingface-cli"; "download"; "city96/t5-v1_1-xxl-encoder-bf16";
          "special_tokens_map.json"; "--local-dir"; "flux-fp8-api/t5"] (Some 0);
    SRun ["huggingface-cli"; "download"; "city96/t5-v1_1-xxl-encoder-bf16";
          "spiece.model"; "--local-dir"; "flux-fp8-api/t5"] (Some 0);
    SRun ["huggingface-cli"; "download"; "city96/t5-v1_1-xxl-encoder-bf16";
          "tokenizer_config.json"; "--local-dir"; "flux-fp8-api/t5"] (Some 0);
    SChdir "flux-fp8-api" true;
    SRun [sys_executable; "main_gr.py"] (Some 0) ].

(** ** The order of a run *)

(** A step with its outcome forgotten, and whether a step went well. *)
Definition attempt (s : step) : step :=
  match s with
  | SRun command _ => SRun command None
  | SMakedirs name _ => SMakedirs name false
  | SChdir name _ => SChdir name false
  end.

Definition succeeded (s : step) : bool :=
  match s with
  | SRun _ returncode => bool_decide (returncode = Some 0)
  | SMakedirs _ ok | SChdir _ ok => ok
  end.

(** [runs plan m w]: started in [w], the action [m] goes through the steps
    of [plan] in their order.  When it returns it has done all of them; when
    it raises it has done the first [n] of them, for some [n], and then the
    next one, which went wrong. *)
Definition runs {A} (plan : list step) (m : M A) (w : World) : Prop :=
  match (m w).1 with
  | Ok _ => outline (trace (m w).2) = outline (trace w) ++ plan
  | Raise _ =>
      ∃ (n : nat) s s',
        plan !! n = Some s' ∧ attempt s = attempt s' ∧ succeeded s = false ∧
        outline (trace (m w).2) = outline (trace w) ++ take n plan ++ [s]
  end.

(** The steps of a whole run that goes well, by whether the repository is
    cloned and whether the requirements file is installed. *)
Definition pipeline (cloned installed : bool) : list step :=
  (if cloned then [SRun ["git"; "clone"; repo_url] (Some 0)] else []) ++
  [SRun [sys_executable; "-m"; "pip"; "install"; "huggingface_hub[hf_transfer]"]
     (Some 0);
   SRun [sys_executable; "-m"; "pip"; "install"; "gradio"] (Some 0)] ++
  (if installed
   then [SRun [sys_executable; "-m"; "pip"; "install"; "-r";
               "flux-fp8-api/requirements.txt"] (Some 0)]
   else []) ++
  (SMakedirs "flux-fp8-api" true :: (download_step "flux-fp8-api" <$> model_files)) ++
  (SMakedirs "flux-fp8-api" true :: (download_step "flux-fp8-api" <$> encoder_files)) ++
  (SMakedirs "flux-fp8-api/t5" true :: (download_step "flux-fp8-api/t5" <$> t5_files)) ++
  [SChdir "flux-fp8-api" true; SRun [sys_executable; "main_gr.py"] (Some 0)].

(** [install_dependencies] up to its test for the requirements file: the
    two named packages. *)
Definition named_installs : M unit :=
  print "Installing dependencies..." ;;
  run_command [sys_executable; "-m"; "pip"; "install"; "huggingface_hub[hf_transfer]"]
    None None ;;
  run_command [sys_executable; "-m"; "pip"; "install"; "gradio"] None None.

(** The main block up to the same test. *)
Definition up_to_requirements_test : M unit :=
  print "Starting setup process..." ;;
  start_time ← time_time;
  clone_flux_repository ;;
  named_installs.

(** What [os.path.exists(requirements_file)] answers in the world [w]. *)
Definition requirements_found (w : World) : bool :=
  path_exists (fs w)
    (resolve (cwd w) (os_path_join "flux-fp8-api" "requirements.txt")).

(** ** What the child processes are given *)

(** The commands of the script other than the downloads and the launch. *)
Definition setup_commands : list (list string) :=
  [ ["git"; "clone"; repo_url];
    [sys_executable; "-m"; "pip"; "install"; "huggingface_hub[hf_transfer]"];
    [sys_executable; "-m"; "pip"; "install"; "gradio"];
    [sys_executable; "-m"; "pip"; "install"; "-r"; "flux-fp8-api/requirements.txt"] ].

(** A child process of a run that started in directory [dir] with
    environment [vars]: the parent's environment is still [vars], no [cwd=]
    is given, and the child is a download with the download environment, or
    a setup command with no [env=], both in [dir], or the launch with no
    [env=] in the repository. *)
Definition child_ok (dir : path) (vars : env) (e : event) : Prop :=
  on_spawn (λ c s _,
    at_environ s = vars ∧ cwd_arg c = None ∧
    ((∃ repo_id filename dest_dir,
        argv c = download_command repo_id filename dest_dir ∧
        env_arg c = Some (download_env vars) ∧ at_cwd s = dir) ∨
     (argv c ∈ setup_commands ∧ env_arg c = None ∧ at_cwd s = dir) ∨
     (argv c = [sys_executable; "main_gr.py"] ∧ env_arg c = None ∧
      at_cwd s = resolve dir "flux-fp8-api"))) e.

Definition extends (P : event → Prop) (w w' : World) : Prop :=
  ∃ d, trace w' = trace w ++ d ∧ Forall P d.

(** The process is where it started, with the environment it started with. *)
Definition settled (dir : path) (vars : env) (w : World) : Prop :=
  cwd w = dir ∧ heap w ≠ [] ∧ environ w = vars.

(** As [settled], but the process may have moved into the repository. *)
Definition landed (dir : path) (vars : env) (w : World) : Prop :=
  (cwd w = dir ∨ cwd w = resolve dir "flux-fp8-api") ∧
  heap w ≠ [] ∧ environ w = vars.

Definition guarded (dir : path) (vars : env) {A} (m : M A) : Prop :=
  ∀ w, settled dir vars w →
       settled dir vars (m w).2 ∧ extends (child_ok dir vars) w (m w).2.

Definition guarded_end (dir : path) (vars : env) {A} (m : M A) : Prop :=
  ∀ w, settled dir vars w →
       landed dir vars (m w).2 ∧ extends (child_ok dir vars) w (m w).2.

(** An action that only prints. *)
Definition silent {A} (m : M A) : Prop :=
  ∀ w, cwd (m w).2 = cwd w ∧ heap (m w).2 = heap w ∧
       extends (λ e, is_print e = true) w (m w).2.

(** ** A run where the clone delivers nothing *)

(** Under the working directory [dir]: the requirements file of the
    repository does not exist; the [t5] directory of the repository exists
    or can be created (no regular file is in the way); the repository is a
    directory. *)
Definition lacks_requirements (n : node) (dir : path) : Prop :=
  path_exists n (resolve dir (os_path_join "flux-fp8-api" "requirements.txt")) = false.

Definition way_is_clear (n : node) (dir : path) : Prop :=
  is_Some (mkdirs n (resolve dir (os_path_join "flux-fp8-api" "t5"))).

Definition has_repo (n : node) (dir : path) : Prop :=
  is_dir n (resolve dir "flux-fp8-api") = true.

(** An action that only adds to the trace. *)
Definition grows {A} (m : M A) : Prop := ∀ w, trace w ⊆ trace (m w).2.

(** ** Destination directories *)

(** A child process that is a download finds its destination: the
    directory it is to download into is a directory of the file system at
    the moment the child is started. *)
Definition finds_destination (c : call) (s : snapshot) (r : proc_result) : Prop :=
  ∀ repo_id filename dest_dir,
    argv c = download_command repo_id filename dest_dir →
    is_dir (at_fs s) (resolve (at_cwd s) dest_dir) = true.

Definition housed (e : event) : Prop := on_spawn finds_destination e.

(** An action all of whose downloads find their destination. *)
Definition houses {A} (m : M A) : Prop := ∀ w, adds finds_destination w (m w).2.

Definition no_makedirs (e : event) : Prop :=
  match e with EMakedirs _ _ => False | _ => True end.

(** In the events [d]: after every [os.makedirs] that succeeded, the next
    thing the process does, two lines of output apart, is to start a
    download into the directory made, and the directory is there in the
    file system the download is started in. *)
Definition made_for_use (d : list event) : Prop :=
  ∀ (i : nat) name, d !! i = Some (EMakedirs name true) →
    ∃ c s r repo_id filename,
      d !! (i + 3)%nat = Some (ESpawn c s r) ∧
      argv c = download_command repo_id filename name ∧
      is_dir (at_fs s) (resolve (at_cwd s) name) = true.

Definition makes_for_use {A} (m : M A) : Prop :=
  ∀ w, ∃ d, trace (m w).2 = trace w ++ d ∧ made_for_use d.

(** ** Laws of the monad *)

Lemma bind_Ok {A B} (m : M A) (k : A → M B) w a w' :
  m w = (Ok a, w') → (m ≫= k) w = k a w'.
Proof. intros H. unfold mbind, M_bind. by rewrite H. Qed.

Lemma bind_Raise {A B} (m : M A) (k : A → M B) w e w' :
  m w = (Raise e, w') → (m ≫= k) w = (Raise e, w').
Proof. intros H. unfold mbind, M_bind. by rewrite H. Qed.

Lemma calm_snoc tr e : calm tr → calm_event e = true → calm (tr ++ [e]).
Proof. intros Htr He. apply Forall_app. split; [done | by constructor]. Qed.

Lemma steady_ret {A} (a : A) : steady (mret a).
Proof. by intros w Hw. Qed.

Lemma steady_bind {A B} (m : M A) (k : A → M B) :
  steady m → (∀ a, steady (k a)) → steady (m ≫= k).
Proof.
  intros Hm Hk w Hw. specialize (Hm w Hw).
  unfold mbind, M_bind. destruct (m w) as [[a | e] w']; simpl in *.
  - by apply Hk.
  - done.
Qed.

Lemma steady_print s : calm_event (EPrint s) = true → steady (print s).
Proof. intros Hs w Hw. simpl. by apply calm_snoc. Qed.

Lemma steady_os_path_exists name : steady (os_path_exists name).
Proof. by intros w Hw. Qed.

Lemma steady_time_time : steady time_time.
Proof. by intros w Hw. Qed.

Lemma steady_os_environ_copy : steady os_environ_copy.
Proof. by intros w Hw. Qed.

Lemma steady_dict_setitem d k v : steady (dict_setitem d k v).
Proof. by intros w Hw. Qed.

Lemma steady_os_makedirs name : steady (os_makedirs name).
Proof.
  intros w Hw. unfold os_makedirs.
  destruct (mkdirs _ _); simpl.
  - by apply calm_snoc.
  - by exists (trace w), (EMakedirs name false).
Qed.

Lemma steady_os_chdir name : steady (os_chdir name).
Proof.
  intros w Hw. unfold os_chdir.
  destruct (is_dir _ _); simpl.
  - by apply calm_snoc.
  - by exists (trace w), (EChdir name false).
Qed.

Lemma steady_run_command command env cwd : steady (run_command command env cwd).
Proof.
  intros w Hw. unfold run_command, try_except, mbind, M_bind, print,
    subprocess_run; simpl.
  set (w1 := emit _ w).
  assert (Hw1 : calm (trace w1)) by by apply calm_snoc.
  destruct (spawn w1 _) as [[rc | msg] root']; simpl.
  - case_bool_decide as Hrc; simpl.
    + apply calm_snoc; [done |]. simpl. by apply bool_decide_eq_true.
    + split; [done |].
      eexists (trace w1), (Call command _ cwd), (snap w1), rc.
      split_and!; [done | done |].
      subst w1. simpl. rewrite <- !app_assoc. reflexivity.
  - eexists (trace w1), _. split_and!; [done | reflexivity | done].
Qed.

Lemma steady_for_each {A} (xs : list A) (body : A → M unit) :
  (∀ x, steady (body x)) → steady (for_each xs body).
Proof.
  intros Hbody. induction xs as [| x xs IH]; simpl.
  - apply steady_ret.
  - apply steady_bind; [apply Hbody | intros _; apply IH].
Qed.

Create HintDb steady.
#[local] Hint Resolve steady_ret steady_bind steady_print steady_os_path_exists
  steady_time_time steady_os_environ_copy steady_dict_setitem steady_os_makedirs
  steady_os_chdir steady_run_command steady_for_each : steady.
#[local] Hint Extern 1 (calm_event (EPrint _) = true) => reflexivity : steady.
#[local] Hint Extern 2 (steady (if ?b then _ else _)) => destruct b : steady.
#[local] Hint Extern 2 (steady (let '(_, _) := ?x in _)) =>
  destruct x as [? [? ?]] : steady.

Lemma steady_download_with_huggingface_cli repo_id filename dest_dir :
  steady (download_with_huggingface_cli repo_id filename dest_dir).
Proof. unfold download_with_huggingface_cli. eauto 10 with steady. Qed.

Lemma steady_setup_files file_map dest_folder :
  steady (setup_files file_map dest_folder).
Proof.
  unfold setup_files. apply steady_bind; [apply steady_os_makedirs | intros _].
  apply steady_for_each. intros [filename [repo_id filename_in_repo]].
  apply steady_download_with_huggingface_cli.
Qed.

#[local] Hint Resolve steady_setup_files : steady.

Lemma steady_install_dependencies : steady install_dependencies.
Proof. unfold install_dependencies. eauto 10 with steady. Qed.

Lemma steady_clone_flux_repository : steady clone_flux_repository.
Proof.
  unfold clone_flux_repository.
  apply steady_bind; [apply steady_os_path_exists | intros []]; simpl;
    eauto 10 with steady.
Qed.

Lemma steady_run_main_script repo_folder : steady (run_main_script repo_folder).
Proof. unfold run_main_script. eauto 10 with steady. Qed.

Lemma steady_provision : steady provision.
Proof.
  unfold provision, setup_model_files, setup_encoder_files, setup_t5_files.
  pose proof steady_install_dependencies.
  pose proof steady_clone_flux_repository.
  pose proof steady_run_main_script.
  eauto 15 with steady.
Qed.

Lemma main_verdict w :
  calm (trace w) → verdict (main w).1 (trace (main w).2).
Proof.
  intros Hw. unfold main, try_except, mbind, M_bind, print, time_time; simpl.
  set (w1 := emit _ w).
  assert (Hw1 : calm (trace w1)) by by apply calm_snoc.
  pose proof (steady_provision w1 Hw1) as Hp.
  destruct (provision w1) as [[[] | [code | cmd rc | msg]] w2]; simpl in *.
  - by apply finished.
  - destruct Hp as [-> (pre & c & s & rc & Hrc & Hpre & ->)].
    by apply command_failed.
  - done.
  - destruct Hp as (pre & e & Hpre & -> & He).
    rewrite <- app_assoc. by apply unexpected.
Qed.

(** In a trace that is calm up to one event and only prints after it, an
    event that is neither calm nor a print is that one event. *)
Lemma locate pre x tail (i : nat) e :
  calm pre → only_prints tail →
  (pre ++ x :: tail) !! i = Some e →
  calm_event e = false → is_print e = false →
  i = length pre ∧ e = x.
Proof.
  intros Hpre Htail Hi Hcalm Hprint.
  apply lookup_app_Some in Hi as [Hi | [Hle Hi]].
  - pose proof (Forall_lookup_1 _ _ _ _ Hpre Hi) as He. simpl in He. congruence.
  - destruct (i - length pre)%nat as [| n] eqn:Hn; simpl in Hi.
    + split; [lia | congruence].
    + pose proof (Forall_lookup_1 _ _ _ _ Htail Hi) as He. simpl in He. congruence.
Qed.

Lemma drop_past pre (x : event) tail : drop (S (length pre)) (pre ++ x :: tail) = tail.
Proof.
  rewrite (cons_middle x pre tail), app_assoc.
  apply drop_app_length'. rewrite length_app. simpl. lia.
Qed.

Lemma calm_event_nonzero c s returncode :
  returncode ≠ 0 → calm_event (ESpawn c s (Exited returncode)) = false.
Proof. intros H. simpl. by apply bool_decide_eq_false. Qed.

(** ** The claims about a whole run *)

(** C1.  Whatever the outside world does, if some wrapped command of a run
    of the script exits with a non-zero code, the run ends with exit status
    1, and after that command the process does nothing but print the two
    lines of the command-failure report: no further download, directory
    creation, directory change or launch is attempted. *)
Theorem nonzero_exit_ends_the_run root dir vars (i : nat) c s returncode :
  let out := main (boot root dir vars) in
  trace out.2 !! i = Some (ESpawn c s (Exited returncode)) →
  returncode ≠ 0 →
  exit_status out.1 = 1 ∧
  drop (S i) (trace out.2)
  = [EPrint ("Command failed: " +:+ join " " (argv c));
     EPrint ("Error: " +:+ CalledProcessError_str (argv c) returncode)].
Proof.
  intros out Hi Hrc. subst out.
  pose proof (main_verdict (boot root dir vars)) as Hv.
  destruct (main _) as [r w']. simpl in *.
  pose proof (calm_event_nonzero c s _ Hrc) as Hcalm.
  destruct Hv as [pre t0 t1 Hpre | pre c' s' rc' Hpre Hrc' | pre e msg Hpre He];
    [by constructor | ..].
  - apply locate in Hi as [_ [=]]; by try constructor.
  - apply locate in Hi as [-> [= -> -> ->]]; try done.
    + split; [done |]. apply drop_past.
    + by repeat constructor.
  - apply locate in Hi as [_ <-]; try done. by repeat constructor.
Qed.


(** ** The Command Runner *)

(** What [run_command] does, by how the child ends. *)
Lemma run_command_eq command env cwd w :
  let w1 := emit (EPrint ("Running command: " +:+ join " " command)) w in
  let c := Call command (d ← env; heap w !! d) cwd in
  run_command command env cwd w =
    match spawn w1 c with
    | (Exited returncode, root') =>
        let w2 := emit (ESpawn c (snap w1) (Exited returncode)) (set_fs root' w1) in
        if bool_decide (returncode = 0) then (Ok tt, w2)
        else (Raise (SystemExit 1),
              emit (EPrint ("Error: " +:+ CalledProcessError_str command returncode))
                (emit (EPrint ("Command failed: " +:+ join " " command)) w2))
    | (SpawnFailed msg, _) =>
        (Raise (OSError msg), emit (ESpawn c (snap w1) (SpawnFailed msg)) w1)
    end.
Proof.
  intros w1 c. unfold run_command, try_except, mbind, M_bind, print,
    subprocess_run; simpl.
  fold w1. change (Call command _ cwd) with c.
  destruct (spawn w1 c) as [[rc | msg] root']; simpl; [| done].
  by case_bool_decide.
Qed.

(** C2, as the code has it.  When the child exits with a non-zero code,
    [run_command] prints the command-failure report and raises
    [SystemExit(1)].  When the child cannot be started, [run_command]
    prints no failure report and does not end the process: the [OSError]
    goes on to its caller.  In a run of the script it is the handler of
    the main block that then prints the unexpected-error message, and the
    exit status is 1. *)
Theorem run_command_failures command env workdir w :
  let w1 := emit (EPrint ("Running command: " +:+ join " " command)) w in
  let c := Call command (d ← env; heap w !! d) workdir in
  (∀ returncode root',
      spawn w1 c = (Exited returncode, root') → returncode ≠ 0 →
      run_command command env workdir w
      = (Raise (SystemExit 1),
         mkWorld root' (cwd w) (heap w)
           (trace w ++ [EPrint ("Running command: " +:+ join " " command);
                        ESpawn c (snap w) (Exited returncode);
                        EPrint ("Command failed: " +:+ join " " command);
                        EPrint ("Error: " +:+ CalledProcessError_str command returncode)]))) ∧
  (∀ msg root',
      spawn w1 c = (SpawnFailed msg, root') →
      run_command command env workdir w
      = (Raise (OSError msg),
         mkWorld (fs w) (cwd w) (heap w)
           (trace w ++ [EPrint ("Running command: " +:+ join " " command);
                        ESpawn c (snap w) (SpawnFailed msg)]))) ∧
  (∀ root dir vars (i : nat) c' s msg,
      let out := main (boot root dir vars) in
      trace out.2 !! i = Some (ESpawn c' s (SpawnFailed msg)) →
      exit_status out.1 = 1 ∧
      drop (S i) (trace out.2)
      = [EPrint ("An unexpected error occurred: " +:+ msg)]).
Proof.
  intros w1 c. split_and!.
  - intros rc root' Hsp Hrc. rewrite run_command_eq. fold w1 c. rewrite Hsp.
    simpl. rewrite bool_decide_eq_false_2 by done.
    unfold emit, set_fs; simpl. by rewrite <- !app_assoc.
  - intros msg root' Hsp. rewrite run_command_eq. fold w1 c. rewrite Hsp.
    unfold emit; simpl. by rewrite <- !app_assoc.
  - intros root dir vars i c' s msg out Hi. subst out.
    pose proof (main_verdict (boot root dir vars)) as Hv.
    destruct (main _) as [r w']. simpl in *.
    destruct Hv as [pre t0 t1 Hpre | pre c0 s0 rc0 Hpre Hrc0 | pre e m Hpre He];
      [by constructor | ..].
    + apply locate in Hi as [_ [=]]; by try constructor.
    + apply locate in Hi as [_ [=]]; try done. by repeat constructor.
    + apply locate in Hi as [-> <-]; try done; [| by repeat constructor].
      simpl in He. subst m. split; [done |]. apply drop_past.
Qed.

(** ** Repository Acquisition *)

(** C5.  When the clone directory exists (as anything: the test is
    [os.path.exists] and nothing looks inside), [clone_flux_repository]
    runs no command: it prints that it skips the clone and returns, and
    the file system, the working directory and the environment are as
    before, so that a further invocation skips again. *)
Theorem clone_skipped_when_directory_exists w :
  path_exists (fs w) (resolve (cwd w) repo_name) = true →
  let w' := emit (EPrint "Repository flux-fp8-api already exists. Skipping clone.") w in
  clone_flux_repository w = (Ok tt, w') ∧
  path_exists (fs w') (resolve (cwd w') repo_name) = true.
Proof.
  intros Hex w'. split; [| done].
  unfold clone_flux_repository, mbind, M_bind, os_path_exists.
  by rewrite Hex.
Qed.

(** ** Dependency Installer *)

(** C4.  When the two named packages install (both pip commands exit 0)
    and the requirements file is absent from the file system the second
    one leaves, [install_dependencies] runs exactly those two commands,
    prints that the requirements file was not found, and returns normally
    instead of raising. *)
Theorem install_without_requirements_file w root1 root2 :
  let pip1 := Call [sys_executable; "-m"; "pip"; "install";
                    "huggingface_hub[hf_transfer]"] None None in
  let pip2 := Call [sys_executable; "-m"; "pip"; "install"; "gradio"] None None in
  let wa := emit (EPrint ("Running command: " +:+ join " " (argv pip1)))
              (emit (EPrint "Installing dependencies...") w) in
  spawn wa pip1 = (Exited 0, root1) →
  let wb := emit (EPrint ("Running command: " +:+ join " " (argv pip2)))
              (emit (ESpawn pip1 (snap wa) (Exited 0)) (set_fs root1 wa)) in
  spawn wb pip2 = (Exited 0, root2) →
  path_exists root2 (resolve (cwd w) "flux-fp8-api/requirements.txt") = false →
  install_dependencies w
  = (Ok tt,
     mkWorld root2 (cwd w) (heap w)
       (trace w ++ [EPrint "Installing dependencies...";
                    EPrint ("Running command: " +:+ join " " (argv pip1));
                    ESpawn pip1 (snap wa) (Exited 0);
                    EPrint ("Running command: " +:+ join " " (argv pip2));
                    ESpawn pip2 (snap wb) (Exited 0);
                    EPrint "Requirements file not found: flux-fp8-api/requirements.txt"])).
Proof.
  intros pip1 pip2 wa H1 wb H2 Hreq.
  unfold install_dependencies.
  erewrite bind_Ok by reflexivity.
  erewrite bind_Ok; cycle 1.
  { rewrite run_command_eq. cbv zeta.
    change (spawn _ _) with (spawn wa pip1). rewrite H1. reflexivity. }
  erewrite bind_Ok; cycle 1.
  { rewrite run_command_eq. cbv zeta.
    change (spawn _ _) with (spawn wb pip2). rewrite H2. reflexivity. }
  unfold mbind, M_bind, os_path_exists; simpl.
  change (os_path_join "flux-fp8-api" "requirements.txt")
    with "flux-fp8-api/requirements.txt".
  rewrite Hreq. unfold print, emit; simpl. by rewrite <- !app_assoc.
Qed.

(** ** Application Launcher *)

(** C8.  In a world where [repo_folder] is a directory, [run_main_script]
    first changes the working directory of the process to it and then runs
    the interpreter that runs the script on [main_gr.py], with no further
    argument, no [env=] and no [cwd=]: the child starts in the new working
    directory with the parent's environment.  [run_main_script] returns
    normally exactly when the child has exited with code 0, and nothing
    but output follows the launch. *)
Theorem run_main_script_launch repo_folder w :
  is_dir (fs w) (resolve (cwd w) repo_folder) = true →
  let out := run_main_script repo_folder w in
  ∃ res tail,
    trace out.2
    = trace w ++ [EPrint ("Changing directory to " +:+ repo_folder +:+ "...");
                  EChdir repo_folder true;
                  EPrint "Running main_gr.py...";
                  EPrint ("Running command: " +:+ sys_executable +:+ " main_gr.py");
                  ESpawn (Call [sys_executable; "main_gr.py"] None None)
                    (Snapshot (fs w) (resolve (cwd w) repo_folder) (environ w))
                    res] ++ tail ∧
    only_prints tail ∧
    cwd out.2 = resolve (cwd w) repo_folder ∧
    (out.1 = Ok tt ↔ res = Exited 0).
Proof.
  intros Hdir out. subst out. unfold run_main_script.
  erewrite bind_Ok by reflexivity.
  erewrite bind_Ok; cycle 1.
  { unfold os_chdir; simpl. rewrite Hdir. reflexivity. }
  erewrite bind_Ok by reflexivity.
  rewrite run_command_eq. simpl.
  match goal with |- context [spawn ?w0 ?c0] =>
    destruct (spawn w0 c0) as [[rc | msg] root'] end; simpl.
  - case_bool_decide as Hrc; simpl.
    + exists (Exited rc), []. rewrite <- !app_assoc. subst rc.
      split_and!; [done | by constructor | done | done].
    + exists (Exited rc), [EPrint ("Command failed: " +:+ sys_executable +:+ " main_gr.py");
                           EPrint ("Error: " +:+ CalledProcessError_str
                                     [sys_executable; "main_gr.py"] rc)].
      rewrite <- !app_assoc.
      split_and!; [done | by repeat constructor | done |].
      split; [done | congruence].
  - exists (SpawnFailed msg), []. rewrite <- !app_assoc.
    split_and!; [done | by constructor | done | done].
Qed.

(** ** Asset Fetcher *)

Lemma alter_end {A} (f : A → A) (l : list A) x :
  alter f (length l) (l ++ [x]) = l ++ [f x].
Proof. induction l as [| y l IH]; simpl; [done | by f_equal]. Qed.

Lemma lookup_end {A} (l : list A) x : (l ++ [x]) !! length l = Some x.
Proof. by apply list_lookup_middle. Qed.

(** What one download does, by how the download tool ends. *)
Lemma download_eq repo_id filename dest_dir w :
  let w1 := emit (EPrint ("Downloading " +:+ repo_id +:+ "/" +:+ filename +:+ " to "
                          +:+ dest_dir +:+ " using huggingface-cli...")) w in
  let w2 := set_heap (heap w ++ [download_env (environ w)]) w1 in
  let command := download_command repo_id filename dest_dir in
  let w3 := emit (EPrint ("Running command: " +:+ join " " command)) w2 in
  let c := Call command (Some (download_env (environ w))) None in
  download_with_huggingface_cli repo_id filename dest_dir w =
    match spawn w3 c with
    | (Exited returncode, root') =>
        let w4 := emit (ESpawn c (snap w3) (Exited returncode)) (set_fs root' w3) in
        if bool_decide (returncode = 0)
        then (Ok tt, emit (EPrint ("Downloaded " +:+ filename +:+ " successfully to "
                                    +:+ dest_dir +:+ ".")) w4)
        else (Raise (SystemExit 1),
              emit (EPrint ("Error: " +:+ CalledProcessError_str command returncode))
                (emit (EPrint ("Command failed: " +:+ join " " command)) w4))
    | (SpawnFailed msg, _) =>
        (Raise (OSError msg), emit (ESpawn c (snap w3) (SpawnFailed msg)) w3)
    end.
Proof.
  intros w1 w2 command w3 c.
  unfold download_with_huggingface_cli.
  erewrite bind_Ok by reflexivity.
  erewrite bind_Ok by reflexivity.
  erewrite bind_Ok by reflexivity.
  erewrite bind_Ok by reflexivity.
  match goal with |- (run_command ?cmd ?e ?d ≫= ?k) ?w0 = _ =>
    assert (Hw : w0 = w2);
    [| change ((run_command cmd e d ≫= k) w0)
         with ((run_command command (Some (length (heap w))) None ≫= k) w0) ]
  end.
  { subst w2 w1. unfold set_heap, emit, download_env; simpl. by rewrite !alter_end. }
  unfold mbind at 1, M_bind at 1. rewrite run_command_eq. cbv zeta.
  rewrite Hw.
  assert (Hc : (d ← Some (length (heap w)); heap w2 !! d)
               = Some (download_env (environ w))).
  { simpl. apply lookup_end. }
  rewrite Hc. fold command. fold w3. fold c.
  destruct (spawn w3 c) as [[rc | msg] root']; [| done].
  by case_bool_decide.
Qed.

Lemma adds_refl Q w : adds Q w w.
Proof. exists []. by rewrite app_nil_r. Qed.

Lemma adds_trans Q w1 w2 w3 : adds Q w1 w2 → adds Q w2 w3 → adds Q w1 w3.
Proof.
  intros (d1 & H1 & F1) (d2 & H2 & F2). exists (d1 ++ d2).
  split; [by rewrite H2, H1, app_assoc | by apply Forall_app].
Qed.

Lemma extends_refl P w : extends P w w.
Proof. exists []. by rewrite app_nil_r. Qed.

Lemma extends_trans P w1 w2 w3 : extends P w1 w2 → extends P w2 w3 → extends P w1 w3.
Proof.
  intros (d1 & H1 & F1) (d2 & H2 & F2). exists (d1 ++ d2).
  split; [by rewrite H2, H1, app_assoc | by apply Forall_app].
Qed.

Lemma extends_impl (P Q : event → Prop) w w' :
  (∀ e, P e → Q e) → extends P w w' → extends Q w w'.
Proof.
  intros HPQ (d & Hd & HF). exists d. split; [done |]. by eapply Forall_impl.
Qed.

Lemma download_frame repo_id filename dest_dir w :
  heap w ≠ [] →
  let out := download_with_huggingface_cli repo_id filename dest_dir w in
  cwd out.2 = cwd w ∧ environ out.2 = environ w ∧ heap out.2 ≠ [].
Proof.
  intros Hheap out. subst out. rewrite download_eq. cbv zeta.
  assert (He : ∀ x, default ∅ ((heap w ++ [x]) !! os_environ) = environ w).
  { intros x. unfold environ. by destruct (heap w). }
  assert (Hne : ∀ x, heap w ++ [x] ≠ []) by by destruct (heap w).
  match goal with |- context [spawn ?w0 ?c0] =>
    destruct (spawn w0 c0) as [[rc | msg] root'] end.
  - case_bool_decide; simpl; unfold environ; simpl; by rewrite He.
  - simpl; unfold environ; simpl; by rewrite He.
Qed.

(** C6.  In a world that has [os.environ], one download changes nothing
    in [os.environ]: the two variables are written to a copy.  The download
    tool is started with that copy, which holds the parent's variables and
    both settings with value "1", while the parent's own environment at the
    moment of the call is the one it had before; only output follows the
    call. *)
Theorem download_leaves_parent_environment repo_id filename dest_dir w :
  heap w ≠ [] →
  let out := download_with_huggingface_cli repo_id filename dest_dir w in
  environ out.2 = environ w ∧
  heap out.2 !! os_environ = heap w !! os_environ ∧
  download_env (environ w) !! "HF_HUB_ENABLE_HF_TRANSFER" = Some "1" ∧
  download_env (environ w) !! "HF_HUB_DISABLE_SSL_VERIFY" = Some "1" ∧
  ∃ res tail,
    trace out.2
    = trace w ++ [EPrint ("Downloading " +:+ repo_id +:+ "/" +:+ filename +:+ " to "
                          +:+ dest_dir +:+ " using huggingface-cli...");
                  EPrint ("Running command: "
                          +:+ join " " (download_command repo_id filename dest_dir));
                  ESpawn (Call (download_command repo_id filename dest_dir)
                            (Some (download_env (environ w))) None)
                    (Snapshot (fs w) (cwd w) (environ w)) res] ++ tail ∧
    only_prints tail.
Proof.
  intros Hheap out. subst out.
  split; [by apply download_frame |].
  split_and!.
  - rewrite download_eq. cbv zeta.
    assert (He : ∀ x, (heap w ++ [x]) !! os_environ = heap w !! os_environ).
    { intros x. by destruct (heap w). }
    match goal with |- context [spawn ?w0 ?c0] =>
      destruct (spawn w0 c0) as [[rc | msg] root'] end.
    + case_bool_decide; simpl; by rewrite He.
    + simpl; by rewrite He.
  - unfold download_env. by rewrite lookup_insert_ne, lookup_insert_eq.
  - unfold download_env. by rewrite lookup_insert_eq.
  - rewrite download_eq. cbv zeta.
    match goal with |- context [spawn ?w0 ?c0] =>
      assert (Hsnap : snap w0 = Snapshot (fs w) (cwd w) (environ w));
      [| rewrite Hsnap; destruct (spawn w0 c0) as [[rc | msg] root']] end.
    { unfold snap, environ; simpl. by destruct (heap w). }
    + case_bool_decide; simpl; eexists _, _; (split;
        [rewrite <- !app_assoc; simpl; reflexivity | by repeat constructor]).
    + simpl. exists (SpawnFailed msg), []. split;
        [by rewrite <- !app_assoc | by constructor].
Qed.

Lemma download_adds_any (Q : call → snapshot → proc_result → Prop)
    repo_id filename dest_dir w :
  (∀ e vars r, Q (Call (download_command repo_id filename dest_dir) e None)
                 (Snapshot (fs w) (cwd w) vars) r) →
  adds Q w (download_with_huggingface_cli repo_id filename dest_dir w).2.
Proof.
  intros HQ. rewrite download_eq. cbv zeta.
  match goal with |- context [spawn ?w0 ?c0] =>
    destruct (spawn w0 c0) as [[rc | msg] root'] end.
  - case_bool_decide; simpl; eexists; (split;
      [simpl; rewrite <- ?app_assoc; reflexivity | repeat constructor; apply HQ]).
  - simpl. eexists. split;
      [simpl; rewrite <- ?app_assoc; reflexivity | repeat constructor; apply HQ].
Qed.

Lemma download_cwd repo_id filename dest_dir w :
  cwd (download_with_huggingface_cli repo_id filename dest_dir w).2 = cwd w.
Proof.
  rewrite download_eq. cbv zeta.
  match goal with |- context [spawn ?w0 ?c0] =>
    destruct (spawn w0 c0) as [[rc | msg] root'] end; [by case_bool_decide | done].
Qed.

(** A property of the file system that no child process breaks is kept by
    a download. *)
Lemma download_fs (good : node → Prop) repo_id filename dest_dir w :
  (∀ w' c, good (fs w') → good (spawn w' c).2) →
  good (fs w) →
  good (fs (download_with_huggingface_cli repo_id filename dest_dir w).2).
Proof.
  intros Hkeep Hw. rewrite download_eq. cbv zeta.
  match goal with |- context [spawn ?w0 ?c0] =>
    pose proof (Hkeep w0 c0 Hw) as Hw';
    destruct (spawn w0 c0) as [[rc | msg] root'] end; [by case_bool_decide | done].
Qed.

Lemma for_each_adds {A} (I : World → Prop) Q (xs : list A) (body : A → M unit) :
  (∀ x w, x ∈ xs → I w → I (body x w).2 ∧ adds Q w (body x w).2) →
  ∀ w, I w → I (for_each xs body w).2 ∧ adds Q w (for_each xs body w).2.
Proof.
  induction xs as [| x xs IH]; intros Hbody w Hw; simpl.
  - split; [done | apply adds_refl].
  - destruct (Hbody x w) as [Hw1 Hadd]; [by left | done |].
    unfold mbind, M_bind. destruct (body x w) as [[[] | e] w1]; simpl in *; [| done].
    destruct (IH (λ y w' Hy, Hbody y w' (list_elem_of_further _ _ _ Hy)) w1 Hw1)
      as [Hw2 Hadd2].
    split; [done | by eapply adds_trans].
Qed.

(** The loop of [setup_files] only reads the values of the file map. *)
Lemma for_each_values (file_map : list (string * (string * string)))
    (download : string → string → M unit) w :
  for_each file_map (λ '(filename, (repo_id, filename_in_repo)),
      download repo_id filename_in_repo) w
  = for_each (file_map.*2) (λ '(repo_id, filename_in_repo),
      download repo_id filename_in_repo) w.
Proof.
  revert w. induction file_map as [| [filename [repo_id filename_in_repo]] fm IH];
    intros w; simpl; [done |].
  unfold mbind, M_bind. by destruct (download _ _ w) as [[[] | e] w1].
Qed.

(** C9.  The local file names, that is the keys of the file map, have no
    part in what [setup_files] does: renaming the keys in any way gives
    the same result and the same world; [setup_files] is the loop over the
    values of the map that downloads each (repository, remote file name)
    pair into the destination directory; and every command it runs is a
    download command made of that pair and the destination directory
    only. *)
Theorem setup_files_ignores_local_names file_map dest_folder w :
  let out := setup_files file_map dest_folder w in
  (∀ rename : string → string,
      setup_files (map (λ item, (rename item.1, item.2)) file_map) dest_folder w
      = out) ∧
  out = (os_makedirs dest_folder ;;
         for_each (file_map.*2) (λ '(repo_id, filename_in_repo),
           download_with_huggingface_cli repo_id filename_in_repo dest_folder)) w ∧
  adds (λ c _ _, ∃ repo_id filename_in_repo,
          (repo_id, filename_in_repo) ∈ file_map.*2 ∧
          c = Call (download_command repo_id filename_in_repo dest_folder)
                (env_arg c) None)
    w out.2.
Proof.
  intros out. subst out.
  assert (Hvalues : ∀ fm w0,
    setup_files fm dest_folder w0
    = (os_makedirs dest_folder ;;
       for_each (fm.*2) (λ '(repo_id, filename_in_repo),
         download_with_huggingface_cli repo_id filename_in_repo dest_folder)) w0).
  { intros fm w0. unfold setup_files, mbind, M_bind.
    destruct (os_makedirs dest_folder w0) as [[[] | e] w1]; [| done].
    apply (for_each_values fm
             (λ r f, download_with_huggingface_cli r f dest_folder)). }
  split_and!.
  - intros rename. rewrite !Hvalues.
    replace ((map (λ item, (rename item.1, item.2)) file_map).*2)
      with (file_map.*2); [done |].
    rewrite <- list_fmap_compose. by apply list_fmap_ext.
  - apply Hvalues.
  - rewrite Hvalues. unfold mbind, M_bind, os_makedirs.
    destruct (mkdirs _ _) as [root' |]; simpl.
    + apply (adds_trans _ _ (emit (EMakedirs dest_folder true) (set_fs root' w)));
        [exists [EMakedirs dest_folder true]; by repeat constructor |].
      apply (for_each_adds (λ _, True)); [| done].
      intros [repo_id filename_in_repo] w0 Hin _. split; [done |].
      apply download_adds_any. intros e vars r. by exists repo_id, filename_in_repo.
    + exists [EMakedirs dest_folder false]. by repeat constructor.
Qed.

(** ** Directories *)

Lemma mkdirs_makes_dir n p n' : mkdirs n p = Some n' → is_dir n' p = true.
Proof.
  revert n n'. induction p as [| c p IH]; intros [| es] n' H; simpl in H; try done.
  - by inversion H.
  - destruct (mkdirs _ p) as [n1 |] eqn:H1; [| done]. inversion H; subst.
    unfold is_dir; simpl. rewrite lookup_insert_eq. by apply IH in H1.
Qed.

Lemma mkdirs_is_dir n p : is_dir n p = true → mkdirs n p = Some n.
Proof.
  revert n. induction p as [| c p IH]; intros [| es]; unfold is_dir; simpl;
    try done.
  destruct (es !! c) as [nc |] eqn:Hc; [| done]. simpl. intros Hdir.
  rewrite (IH nc Hdir). by rewrite insert_id.
Qed.

Lemma find_app n p q : find n (p ++ q) = find n p ≫= λ m, find m q.
Proof.
  revert n. induction p as [| c p IH]; intros n; simpl; [done |].
  destruct n as [| es]; [done |]. destruct (es !! c); [apply IH | done].
Qed.

Lemma mkdirs_keeps n p n' q :
  mkdirs n p = Some n' → path_exists n q = true → path_exists n' q = true.
Proof.
  unfold path_exists. revert n n' q.
  induction p as [| c p IH]; intros [| es] n' q H; simpl in H; try done.
  - by inversion H.
  - destruct (mkdirs _ p) as [n1 |] eqn:H1; [| done]. inversion H; subst.
    destruct q as [| c' q]; simpl; [done |].
    destruct (decide (c = c')) as [<- | Hne].
    + rewrite lookup_insert_eq. destruct (es !! c) as [nc |]; [| done].
      simpl in H1. by apply IH.
    + by rewrite lookup_insert_ne.
Qed.

(** [os.makedirs(p, exist_ok=True)] succeeds exactly when no regular file
    sits at [p] or on the way to it. *)
Lemma mkdirs_succeeds_iff n p :
  is_Some (mkdirs n p) ↔ ∀ k : nat, find n (take k p) ≠ Some File.
Proof.
  revert n. induction p as [| c p IH]; intros [| es]; simpl.
  - split; [by intros [? ?] | intros H; by specialize (H 0%nat)].
  - split; [by intros _ [| k] | by eauto].
  - split; [by intros [? ?] | intros H; by specialize (H 0%nat)].
  - specialize (IH (default (Dir ∅) (es !! c))).
    destruct (mkdirs (default (Dir ∅) (es !! c)) p) as [n' |] eqn:Hmk.
    + split; [intros _ | by eauto].
      destruct IH as [IH _]. specialize (IH ltac:(by eauto)).
      intros [| k]; simpl; [done |].
      destruct (es !! c) as [nc |]; [apply IH | done].
    + split; [by intros [? ?] | intros H; exfalso].
      destruct IH as [_ IH]. destruct IH as [? ?]; [| done].
      intros k. specialize (H (S k)). simpl in H.
      destruct (es !! c) as [nc |]; simpl; [done |].
      destruct (take k p) as [| x q]; simpl; [done |].
      by rewrite lookup_empty.
Qed.

(** How a download begins: two lines of output, then the download tool is
    started, in the file system and the directory the parent is in. *)
Lemma download_starts repo_id filename dest_dir w :
  ∃ m1 m2 c s r tail,
    trace (download_with_huggingface_cli repo_id filename dest_dir w).2
    = trace w ++ EPrint m1 :: EPrint m2 :: ESpawn c s r :: tail ∧
    argv c = download_command repo_id filename dest_dir ∧
    at_fs s = fs w ∧ at_cwd s = cwd w.
Proof.
  rewrite download_eq. cbv zeta.
  match goal with |- context [spawn ?w0 ?c0] =>
    destruct (spawn w0 c0) as [[rc | msg] root'] end.
  - case_bool_decide; simpl; eexists _, _, _, _, _, _;
      (split; [rewrite <- ?app_assoc; simpl; reflexivity | done]).
  - simpl. eexists _, _, _, _, _, []. split; [by rewrite <- ?app_assoc | done].
Qed.

(** C7.  [setup_files] begins with the creation of the destination
    directory.  The creation succeeds exactly when no regular file sits at
    the destination or on the way to it; it then leaves the destination a
    directory, whether it was there or not, and takes away nothing that
    existed.  When the creation fails nothing is downloaded.  When it
    succeeds the first download is started in the file system the creation
    has left, and, as long as no child process removes the directory, the
    directory exists at the moment every download of the collection is
    started.  And creating a directory that already exists changes nothing
    in the file system. *)
Theorem destination_directory_exists_for_downloads file_map dest_folder w :
  let p := resolve (cwd w) dest_folder in
  (∀ w' c, is_dir (fs w') p = true → is_dir (spawn w' c).2 p = true) →
  let out := setup_files file_map dest_folder w in
  let made := fs (os_makedirs dest_folder w).2 in
  (∃ ok rest,
      trace out.2 = trace w ++ EMakedirs dest_folder ok :: rest ∧
      (ok = false → rest = [] ∧ ∃ msg, out.1 = Raise (OSError msg)) ∧
      Forall (on_spawn (λ _ s _,
                is_dir (at_fs s) (resolve (at_cwd s) dest_folder) = true)) rest ∧
      (ok = true ↔ ∀ k : nat, find (fs w) (take k p) ≠ Some File) ∧
      (ok = true →
         is_dir made p = true ∧
         (∀ q, path_exists (fs w) q = true → path_exists made q = true) ∧
         ∀ filename repo_id filename_in_repo fm,
           file_map = (filename, (repo_id, filename_in_repo)) :: fm →
           ∃ m1 m2 c s r tail,
             rest = EPrint m1 :: EPrint m2 :: ESpawn c s r :: tail ∧
             argv c = download_command repo_id filename_in_repo dest_folder ∧
             at_fs s = made ∧ at_cwd s = cwd w)) ∧
  (is_dir (fs w) p = true →
      os_makedirs dest_folder w = (Ok tt, emit (EMakedirs dest_folder true) w)).
Proof.
  intros p Hkeep out made. subst out made. split.
  - pose proof (mkdirs_succeeds_iff (fs w) p) as Hiff.
    pose proof (mkdirs_keeps (fs w) p) as Hstay.
    unfold setup_files, mbind, M_bind, os_makedirs. fold p.
    destruct (mkdirs (fs w) p) as [root' |] eqn:Hmk; simpl.
    + apply mkdirs_makes_dir in Hmk.
      set (w1 := emit _ (set_fs root' w)).
      destruct (for_each_adds
        (λ w0, cwd w0 = cwd w ∧ is_dir (fs w0) p = true)
        (λ _ s _, is_dir (at_fs s) (resolve (at_cwd s) dest_folder) = true)
        file_map
        (λ '(filename, (repo_id, filename_in_repo)),
           download_with_huggingface_cli repo_id filename_in_repo dest_folder))
        with (w := w1) as [_ (d & Hd & HF)]; [| done |].
      * intros [filename [repo_id filename_in_repo]] w0 _ [Hcwd Hdir].
        split_and!.
        -- by rewrite download_cwd.
        -- by apply (download_fs (λ n, is_dir n p = true)).
        -- apply download_adds_any. intros e vars r. simpl. by rewrite Hcwd.
      * exists true, d. split_and!; [| done | done | | ].
        -- rewrite Hd. subst w1. simpl. by rewrite <- app_assoc.
        -- split; [intros _; apply Hiff; by eauto | done].
        -- intros _. split_and!; [done | intros q; by apply Hstay |].
           intros filename repo_id filename_in_repo fm ->. simpl in Hd.
           destruct (download_starts repo_id filename_in_repo dest_folder w1)
             as (m1 & m2 & c & s & r & tail & Ht & Hc & Hs & Hcwd).
           unfold mbind, M_bind in Hd.
           destruct (download_with_huggingface_cli repo_id filename_in_repo
                       dest_folder w1) as [[[] | e] w2]; simpl in *.
           ++ destruct (for_each_adds (λ _, True) (λ _ _ _, True) fm
                (λ '(filename, (repo_id, filename_in_repo)),
                   download_with_huggingface_cli repo_id filename_in_repo
                     dest_folder)) with (w := w2) as [_ (d2 & Hd2 & _)];
                [| done |].
              { intros [f [r0 f0]] w0 _ _. split; [done |].
                by apply download_adds_any. }
              rewrite Hd2, Ht in Hd. rewrite <- !app_assoc in Hd.
              do 2 apply app_inv_head in Hd. subst d.
              by exists m1, m2, c, s, r, (tail ++ d2).
           ++ rewrite Ht in Hd. rewrite <- !app_assoc in Hd.
              do 2 apply app_inv_head in Hd. subst d.
              by exists m1, m2, c, s, r, tail.
    + exists false, []. split_and!; [done | | by constructor | | done].
      * intros _. split; [done | by eexists].
      * split; [done |]. intros H. apply Hiff in H. by destruct H.
  - intros Hdir. unfold os_makedirs. fold p. rewrite (mkdirs_is_dir _ _ Hdir).
    by destruct w.
Qed.

Lemma mkdirs_child n base c :
  is_dir n base = true → find n (base ++ [c]) ≠ Some File →
  is_Some (mkdirs n (base ++ [c])).
Proof.
  unfold is_dir. revert n. induction base as [| b base IH]; intros [| es]; simpl;
    try done.
  - intros _ Hc. destruct (es !! c) as [[| es'] |]; simpl in *; by eauto.
  - destruct (es !! b) as [nb |]; [| done]. simpl. intros Hdir Hc.
    destruct (IH nb Hdir Hc) as [n' ->]. by eauto.
Qed.

(** ** A run with no prior state *)

Lemma leads_trans s1 s2 w1 w2 w3 :
  leads s1 w1 w2 → leads s2 w2 w3 → leads (s1 ++ s2) w1 w3.
Proof.
  intros [C1 O1] [C2 O2]. split; [congruence |].
  by rewrite O2, O1, app_assoc.
Qed.

Lemma leads_print s w : leads [] w (emit (EPrint s) w).
Proof.
  split; [done |]. simpl. unfold outline. rewrite omap_app. simpl.
  by rewrite !app_nil_r.
Qed.

Lemma resolve_repo dir : resolve dir "flux-fp8-api" = dir ++ ["flux-fp8-api"].
Proof. reflexivity. Qed.

Lemma resolve_requirements dir :
  resolve dir (os_path_join "flux-fp8-api" "requirements.txt")
  = (dir ++ ["flux-fp8-api"]) ++ ["requirements.txt"].
Proof. by rewrite <- app_assoc. Qed.

Lemma resolve_t5 dir :
  resolve dir (os_path_join "flux-fp8-api" "t5") = (dir ++ ["flux-fp8-api"]) ++ ["t5"].
Proof. by rewrite <- app_assoc. Qed.

Lemma repo_dir n dir : repo_ready n dir → is_dir n (resolve dir "flux-fp8-api") = true.
Proof.
  intros [Hreq _]. unfold path_exists in Hreq.
  rewrite resolve_requirements, find_app in Hreq. rewrite resolve_repo.
  unfold is_dir. by destruct (find n (dir ++ ["flux-fp8-api"])) as [[| es] |].
Qed.

Lemma make_repo n dir :
  repo_ready n dir → mkdirs n (resolve dir "flux-fp8-api") = Some n.
Proof. intros H. by apply mkdirs_is_dir, repo_dir. Qed.

Lemma make_t5 n dir :
  repo_ready n dir →
  ∃ n', mkdirs n (resolve dir (os_path_join "flux-fp8-api" "t5")) = Some n' ∧
        repo_ready n' dir.
Proof.
  intros Hready. pose proof Hready as [Hreq Ht5].
  destruct (mkdirs_child n (dir ++ ["flux-fp8-api"]) "t5") as [n' Hn'].
  { rewrite <- resolve_repo. by apply repo_dir. }
  { by rewrite <- resolve_t5. }
  rewrite <- resolve_t5 in Hn'. exists n'. split; [done |]. split.
  - by eapply mkdirs_keeps.
  - apply mkdirs_makes_dir in Hn'. unfold is_dir in Hn'.
    by destruct (find n' _) as [[| es] |].
Qed.

(** ** Downloads find their destination *)

Lemma houses_ret {A} (a : A) : houses (mret a).
Proof. intros w. apply adds_refl. Qed.

Lemma houses_bind {A B} (m : M A) (k : A → M B) :
  houses m → (∀ a, houses (k a)) → houses (m ≫= k).
Proof.
  intros Hm Hk w. specialize (Hm w). unfold mbind, M_bind.
  destruct (m w) as [[a | e] w1]; simpl in *; [| done].
  eapply adds_trans; [done | apply Hk].
Qed.

Lemma houses_print s : houses (print s).
Proof. intros w. exists [EPrint s]. by repeat constructor. Qed.

Lemma houses_os_path_exists name : houses (os_path_exists name).
Proof. intros w. apply adds_refl. Qed.

Lemma houses_time_time : houses time_time.
Proof. intros w. apply adds_refl. Qed.

Lemma houses_sys_exit {A} code : houses (@sys_exit A code).
Proof. intros w. apply adds_refl. Qed.

Lemma houses_os_chdir name : houses (os_chdir name).
Proof.
  intros w. unfold os_chdir. destruct (is_dir _ _); simpl.
  - exists [EChdir name true]. by repeat constructor.
  - exists [EChdir name false]. by repeat constructor.
Qed.

Lemma houses_try_except {A} (body : M A) classes handler :
  houses body → (∀ e, houses (handler e)) → houses (try_except body classes handler).
Proof.
  intros Hb Hh w. specialize (Hb w). unfold try_except.
  destruct (body w) as [[a | e] w1]; simpl in *; [done |].
  destruct (classes e); [| done].
  eapply adds_trans; [done | apply Hh].
Qed.

(** A command that is not a download has no destination to find. *)
Lemma houses_run_command command env workdir :
  (∀ repo_id filename dest_dir, command ≠ download_command repo_id filename dest_dir) →
  houses (run_command command env workdir).
Proof.
  intros Hne w. rewrite run_command_eq. cbv zeta.
  assert (Hchild : ∀ e s r,
            on_spawn finds_destination (ESpawn (Call command e workdir) s r)).
  { intros e s r repo_id filename dest_dir Hc. by destruct (Hne _ _ _ Hc). }
  match goal with |- context [spawn ?w0 ?c0] =>
    destruct (spawn w0 c0) as [[rc | msg] root'] end; simpl.
  - case_bool_decide; simpl; eexists;
      (split; [simpl; rewrite <- ?app_assoc; reflexivity |]);
      repeat (constructor; [first [exact I | apply Hchild] |]); constructor.
  - eexists. split; [simpl; rewrite <- ?app_assoc; reflexivity |].
    repeat (constructor; [first [exact I | apply Hchild] |]); constructor.
Qed.

Lemma houses_run_main_script repo_folder : houses (run_main_script repo_folder).
Proof.
  unfold run_main_script.
  apply houses_bind; [apply houses_print | intros _].
  apply houses_bind; [apply houses_os_chdir | intros _].
  apply houses_bind; [apply houses_print | intros _].
  apply houses_run_command. by intros ? ? ? [=].
Qed.

Lemma houses_clone_flux_repository : houses clone_flux_repository.
Proof.
  unfold clone_flux_repository.
  apply houses_bind; [apply houses_os_path_exists | intros []]; simpl.
  - apply houses_print.
  - apply houses_bind; [apply houses_print | intros _].
    apply houses_run_command. by intros ? ? ? [=].
Qed.

Lemma houses_install_dependencies : houses install_dependencies.
Proof.
  unfold install_dependencies.
  apply houses_bind; [apply houses_print | intros _].
  apply houses_bind; [apply houses_run_command; by intros ? ? ? [=] | intros _].
  apply houses_bind; [apply houses_run_command; by intros ? ? ? [=] | intros _].
  apply houses_bind; [apply houses_os_path_exists | intros []].
  - apply houses_run_command. by intros ? ? ? [=].
  - apply houses_print.
Qed.

Section Housing.

(** No download removes the directory it downloads into. *)
Hypothesis downloads_keep :
  ∀ w c repo_id filename dest_dir,
    argv c = download_command repo_id filename dest_dir →
    is_dir (fs w) (resolve (cwd w) dest_dir) = true →
    is_dir (spawn w c).2 (resolve (cwd w) dest_dir) = true.

Lemma download_keeps repo_id filename dest_dir w :
  is_dir (fs w) (resolve (cwd w) dest_dir) = true →
  is_dir (fs (download_with_huggingface_cli repo_id filename dest_dir w).2)
    (resolve (cwd w) dest_dir) = true.
Proof.
  intros Hdir. rewrite download_eq. cbv zeta.
  match goal with |- context [spawn ?w0 ?c0] =>
    pose proof (downloads_keep w0 c0 repo_id filename dest_dir eq_refl Hdir) as Hk;
    destruct (spawn w0 c0) as [[rc | msg] root'] end; [by case_bool_decide | done].
Qed.

(** [setup_files] makes the destination a directory before the first
    download, and it is one at every download after it. *)
Lemma houses_setup_files file_map dest_folder :
  houses (setup_files file_map dest_folder).
Proof.
  intros w. unfold setup_files, mbind, M_bind, os_makedirs.
  destruct (mkdirs _ _) as [root' |] eqn:Hmk; simpl.
  - apply mkdirs_makes_dir in Hmk.
    set (w1 := emit _ (set_fs root' w)).
    apply (adds_trans _ _ w1); [exists [EMakedirs dest_folder true]; by repeat constructor |].
    apply (for_each_adds
      (λ w0, cwd w0 = cwd w ∧ is_dir (fs w0) (resolve (cwd w) dest_folder) = true));
      [| done].
    intros [filename [repo_id filename_in_repo]] w0 _ [Hcwd Hdir].
    split_and!.
    + by rewrite download_cwd.
    + rewrite <- Hcwd. apply download_keeps. by rewrite Hcwd.
    + apply download_adds_any. intros e vars r repo_id' filename' dest_dir' [= _ _ <-].
      simpl. by rewrite Hcwd.
  - exists [EMakedirs dest_folder false]. by repeat constructor.
Qed.

Lemma houses_provision : houses provision.
Proof.
  unfold provision, setup_model_files, setup_encoder_files, setup_t5_files.
  apply houses_bind; [apply houses_clone_flux_repository | intros _].
  apply houses_bind; [apply houses_install_dependencies | intros _].
  apply houses_bind; [| intros _].
  { apply houses_bind; [apply houses_print | intros _; apply houses_setup_files]. }
  apply houses_bind; [| intros _].
  { apply houses_bind; [apply houses_print | intros _; apply houses_setup_files]. }
  apply houses_bind; [| intros _].
  { apply houses_bind; [apply houses_print | intros _; apply houses_setup_files]. }
  apply houses_run_main_script.
Qed.

Lemma houses_main : houses main.
Proof.
  unfold main.
  apply houses_bind; [apply houses_print | intros _].
  apply houses_bind; [apply houses_time_time | intros start_time].
  apply houses_bind; [| intros _].
  { apply houses_try_except; [apply houses_provision | intros e].
    apply houses_bind; [apply houses_print | intros _; apply houses_sys_exit]. }
  apply houses_bind; [apply houses_time_time | intros end_time].
  apply houses_print.
Qed.

End Housing.

(** ** Directories are made for the download that follows *)

Lemma made_for_use_app d1 d2 :
  made_for_use d1 → made_for_use d2 → made_for_use (d1 ++ d2).
Proof.
  intros H1 H2 i name Hi. apply lookup_app_Some in Hi as [Hi | [Hle Hi]].
  - destruct (H1 i name Hi) as (c & s & r & repo_id & filename & Hs & Hc & Hd).
    exists c, s, r, repo_id, filename.
    split_and!; [by apply lookup_app_l_Some | done | done].
  - destruct (H2 _ name Hi) as (c & s & r & repo_id & filename & Hs & Hc & Hd).
    exists c, s, r, repo_id, filename. split_and!; [| done | done].
    rewrite lookup_app_r by lia. rewrite <- Hs. f_equal. lia.
Qed.

Lemma made_for_use_quiet d : Forall no_makedirs d → made_for_use d.
Proof. intros HF i name Hi. by apply (Forall_lookup_1 _ _ _ _ HF) in Hi. Qed.

Lemma makes_of_quiet {A} (m : M A) :
  (∀ w, extends no_makedirs w (m w).2) → makes_for_use m.
Proof.
  intros Hm w. destruct (Hm w) as (d & Hd & HF). exists d.
  split; [done | by apply made_for_use_quiet].
Qed.

Lemma makes_bind {A B} (m : M A) (k : A → M B) :
  makes_for_use m → (∀ a, makes_for_use (k a)) → makes_for_use (m ≫= k).
Proof.
  intros Hm Hk w. destruct (Hm w) as (d1 & E1 & F1). unfold mbind, M_bind.
  destruct (m w) as [[a | e] w1]; simpl in *; [| by exists d1].
  destruct (Hk a w1) as (d2 & E2 & F2). exists (d1 ++ d2).
  split; [by rewrite E2, E1, app_assoc | by apply made_for_use_app].
Qed.

Lemma makes_try_except {A} (body : M A) classes handler :
  makes_for_use body → (∀ e, makes_for_use (handler e)) →
  makes_for_use (try_except body classes handler).
Proof.
  intros Hb Hh w. destruct (Hb w) as (d1 & E1 & F1). unfold try_except.
  destruct (body w) as [[a | e] w1]; simpl in *; [by exists d1 |].
  destruct (classes e); [| by exists d1].
  destruct (Hh e w1) as (d2 & E2 & F2). exists (d1 ++ d2).
  split; [by rewrite E2, E1, app_assoc | by apply made_for_use_app].
Qed.

Lemma makes_print s : makes_for_use (print s).
Proof.
  apply makes_of_quiet. intros w. exists [EPrint s]. by repeat constructor.
Qed.

Lemma makes_os_path_exists name : makes_for_use (os_path_exists name).
Proof. apply makes_of_quiet. intros w. apply extends_refl. Qed.

Lemma makes_time_time : makes_for_use time_time.
Proof. apply makes_of_quiet. intros w. apply extends_refl. Qed.

Lemma makes_sys_exit {A} code : makes_for_use (@sys_exit A code).
Proof. apply makes_of_quiet. intros w. apply extends_refl. Qed.

Lemma makes_os_chdir name : makes_for_use (os_chdir name).
Proof.
  apply makes_of_quiet. intros w. unfold os_chdir. destruct (is_dir _ _); simpl.
  - exists [EChdir name true]. by repeat constructor.
  - exists [EChdir name false]. by repeat constructor.
Qed.

Lemma quiet_run_command command env workdir w :
  extends no_makedirs w (run_command command env workdir w).2.
Proof.
  rewrite run_command_eq. cbv zeta.
  match goal with |- context [spawn ?w0 ?c0] =>
    destruct (spawn w0 c0) as [[rc | msg] root'] end; simpl.
  - case_bool_decide; simpl; eexists;
      (split; [simpl; rewrite <- ?app_assoc; reflexivity | by repeat constructor]).
  - eexists. split; [simpl; rewrite <- ?app_assoc; reflexivity | by repeat constructor].
Qed.

Lemma makes_run_command command env workdir :
  makes_for_use (run_command command env workdir).
Proof. apply makes_of_quiet. intros w. apply quiet_run_command. Qed.

Lemma quiet_download repo_id filename dest_dir w :
  extends no_makedirs w (download_with_huggingface_cli repo_id filename dest_dir w).2.
Proof.
  rewrite download_eq. cbv zeta.
  match goal with |- context [spawn ?w0 ?c0] =>
    destruct (spawn w0 c0) as [[rc | msg] root'] end; simpl.
  - case_bool_decide; simpl; eexists;
      (split; [simpl; rewrite <- ?app_assoc; reflexivity | by repeat constructor]).
  - eexists. split; [simpl; rewrite <- ?app_assoc; reflexivity | by repeat constructor].
Qed.

Lemma quiet_downloads (file_map : list (string * (string * string))) dest_folder w :
  extends no_makedirs w
    (for_each file_map (λ '(filename, (repo_id, filename_in_repo)),
       let dest_path := os_path_join dest_folder filename in
       download_with_huggingface_cli repo_id filename_in_repo dest_folder) w).2.
Proof.
  revert w. induction file_map as [| [filename [repo_id filename_in_repo]] fm IH];
    intros w; simpl; [apply extends_refl |].
  pose proof (quiet_download repo_id filename_in_repo dest_folder w) as H1.
  unfold mbind, M_bind.
  destruct (download_with_huggingface_cli _ _ _ w) as [[[] | e] w1]; simpl in *;
    [| done].
  eapply extends_trans; [done | apply IH].
Qed.

(** The loop of [setup_files] begins with the start of the first
    download. *)
Lemma downloads_start filename repo_id filename_in_repo fm dest_folder w :
  ∃ m1 m2 c s r tail,
    trace (for_each ((filename, (repo_id, filename_in_repo)) :: fm)
             (λ '(filename, (repo_id, filename_in_repo)),
                let dest_path := os_path_join dest_folder filename in
                download_with_huggingface_cli repo_id filename_in_repo dest_folder)
             w).2
    = trace w ++ EPrint m1 :: EPrint m2 :: ESpawn c s r :: tail ∧
    argv c = download_command repo_id filename_in_repo dest_folder ∧
    at_fs s = fs w ∧ at_cwd s = cwd w.
Proof.
  simpl.
  destruct (download_starts repo_id filename_in_repo dest_folder w)
    as (m1 & m2 & c & s & r & tail & Ht & Hc & Hs & Hcwd).
  unfold mbind, M_bind.
  destruct (download_with_huggingface_cli _ _ _ w) as [[[] | e] w1]; simpl in *.
  - destruct (quiet_downloads fm dest_folder w1) as (d & Hd & _).
    exists m1, m2, c, s, r, (tail ++ d). split; [| done].
    etrans; [exact Hd |]. rewrite Ht. by rewrite <- app_assoc.
  - by exists m1, m2, c, s, r, tail.
Qed.

Lemma makes_setup_files file_map dest_folder :
  file_map ≠ [] → makes_for_use (setup_files file_map dest_folder).
Proof.
  intros Hne w. unfold setup_files, mbind, M_bind, os_makedirs.
  destruct (mkdirs _ _) as [root' |] eqn:Hmk; simpl.
  - apply mkdirs_makes_dir in Hmk.
    set (w1 := emit _ (set_fs root' w)).
    destruct file_map as [| [filename [repo_id filename_in_repo]] fm]; [done |].
    destruct (downloads_start filename repo_id filename_in_repo fm dest_folder w1)
      as (m1 & m2 & c & s & r & tail & Ht & Hc & Hs & Hcwd).
    destruct (quiet_downloads ((filename, (repo_id, filename_in_repo)) :: fm)
                dest_folder w1) as (d & Hd & HF).
    rewrite Ht in Hd. apply app_inv_head in Hd. subst d.
    eexists (EMakedirs dest_folder true :: _). split.
    { etrans; [exact Ht |]. subst w1. simpl. rewrite <- app_assoc. reflexivity. }
    intros [| i] name Hi; simpl in Hi.
    + injection Hi as <-. exists c, s, r, repo_id, filename_in_repo.
      split_and!; [done | done |]. by rewrite Hs, Hcwd.
    + by apply (Forall_lookup_1 _ _ _ _ HF) in Hi.
  - exists [EMakedirs dest_folder false]. split; [done |].
    by intros [| [| i]] name Hi.
Qed.

Lemma makes_provision : makes_for_use provision.
Proof.
  unfold provision, setup_model_files, setup_encoder_files, setup_t5_files.
  apply makes_bind; [| intros _].
  { unfold clone_flux_repository.
    apply makes_bind; [apply makes_os_path_exists | intros []]; simpl.
    - apply makes_print.
    - apply makes_bind; [apply makes_print | intros _; apply makes_run_command]. }
  apply makes_bind; [| intros _].
  { unfold install_dependencies.
    apply makes_bind; [apply makes_print | intros _].
    apply makes_bind; [apply makes_run_command | intros _].
    apply makes_bind; [apply makes_run_command | intros _].
    apply makes_bind; [apply makes_os_path_exists | intros []].
    - apply makes_run_command.
    - apply makes_print. }
  apply makes_bind; [| intros _].
  { apply makes_bind; [apply makes_print | intros _; by apply makes_setup_files]. }
  apply makes_bind; [| intros _].
  { apply makes_bind; [apply makes_print | intros _; by apply makes_setup_files]. }
  apply makes_bind; [| intros _].
  { apply makes_bind; [apply makes_print | intros _; by apply makes_setup_files]. }
  unfold run_main_script.
  apply makes_bind; [apply makes_print | intros _].
  apply makes_bind; [apply makes_os_chdir | intros _].
  apply makes_bind; [apply makes_print | intros _; apply makes_run_command].
Qed.

Lemma makes_main : makes_for_use main.
Proof.
  unfold main.
  apply makes_bind; [apply makes_print | intros _].
  apply makes_bind; [apply makes_time_time | intros start_time].
  apply makes_bind; [| intros _].
  { apply makes_try_except; [apply makes_provision | intros e].
    apply makes_bind; [apply makes_print | intros _; apply makes_sys_exit]. }
  apply makes_bind; [apply makes_time_time | intros end_time].
  apply makes_print.
Qed.

Lemma absent_is_no_dir n p : path_exists n p = false → is_dir n p = false.
Proof. unfold path_exists, is_dir. by destruct (find n p) as [[| es] |]. Qed.

Lemma absent_child n p q : path_exists n p = false → path_exists n (p ++ q) = false.
Proof.
  unfold path_exists. rewrite find_app. by destruct (find n p).
Qed.

Section FreshRun.

(** The outside world of a run where everything goes well: every command
    exits with code 0, [git clone] delivers the repository, and no
    command takes it away again. *)
Hypothesis all_succeed : ∀ w c, (spawn w c).1 = Exited 0.
Hypothesis clone_delivers :
  ∀ w c, argv c = ["git"; "clone"; repo_url] → repo_ready (spawn w c).2 (cwd w).
Hypothesis tools_keep :
  ∀ w c, repo_ready (fs w) (cwd w) → repo_ready (spawn w c).2 (cwd w).

Lemma run_command_ok command env workdir w :
  ∃ w', run_command command env workdir w = (Ok tt, w') ∧
        leads [SRun command (Some 0)] w w' ∧
        (repo_ready (fs w) (cwd w) → repo_ready (fs w') (cwd w)) ∧
        (command = ["git"; "clone"; repo_url] → repo_ready (fs w') (cwd w)).
Proof.
  rewrite run_command_eq. cbv zeta.
  match goal with |- context [spawn ?w0 ?c0] =>
    pose proof (all_succeed w0 c0) as Hok;
    pose proof (tools_keep w0 c0) as Hkeep;
    pose proof (clone_delivers w0 c0) as Hclone;
    destruct (spawn w0 c0) as [res root'] end.
  simpl in *. subst res. simpl.
  eexists. split; [reflexivity |]. split_and!; [| done | done].
  split; [done |]. simpl. unfold outline. rewrite !omap_app. simpl.
  by rewrite !app_nil_r.
Qed.

Lemma download_ok repo_id filename dest_dir w :
  repo_ready (fs w) (cwd w) →
  ∃ w', download_with_huggingface_cli repo_id filename dest_dir w = (Ok tt, w') ∧
        leads [SRun (download_command repo_id filename dest_dir) (Some 0)] w w' ∧
        repo_ready (fs w') (cwd w).
Proof.
  intros Hready. rewrite download_eq. cbv zeta.
  match goal with |- context [spawn ?w0 ?c0] =>
    pose proof (all_succeed w0 c0) as Hok;
    pose proof (tools_keep w0 c0 Hready) as Hkeep;
    destruct (spawn w0 c0) as [res root'] end.
  simpl in *. subst res. simpl.
  eexists. split; [reflexivity |]. split; [| done].
  split; [done |]. simpl. unfold outline. rewrite !omap_app. simpl.
  by rewrite !app_nil_r.
Qed.

Lemma downloads_ok (file_map : list (string * (string * string))) dest_folder w :
  repo_ready (fs w) (cwd w) →
  ∃ w', for_each file_map (λ '(filename, (repo_id, filename_in_repo)),
          let dest_path := os_path_join dest_folder filename in
          download_with_huggingface_cli repo_id filename_in_repo dest_folder) w
        = (Ok tt, w') ∧
        leads (download_step dest_folder <$> file_map) w w' ∧
        repo_ready (fs w') (cwd w).
Proof.
  revert w. induction file_map as [| [filename [repo_id filename_in_repo]] fm IH];
    intros w Hready; simpl.
  - exists w. split_and!; [done | | done]. split; [done | by rewrite app_nil_r].
  - destruct (download_ok repo_id filename_in_repo dest_folder w Hready)
      as (w1 & E1 & L1 & R1).
    erewrite bind_Ok by exact E1.
    destruct L1 as [C1 O1]. rewrite <- C1 in R1.
    destruct (IH w1 R1) as (w2 & E2 & L2 & R2).
    exists w2. split_and!; [done | | by rewrite <- C1].
    by apply (leads_trans [_] _ w w1 w2).
Qed.

Lemma setup_files_ok file_map dest_folder w :
  (∀ n, repo_ready n (cwd w) →
        ∃ n', mkdirs n (resolve (cwd w) dest_folder) = Some n' ∧
              repo_ready n' (cwd w)) →
  repo_ready (fs w) (cwd w) →
  ∃ w', setup_files file_map dest_folder w = (Ok tt, w') ∧
        leads (SMakedirs dest_folder true :: (download_step dest_folder <$> file_map))
          w w' ∧
        repo_ready (fs w') (cwd w).
Proof.
  intros Hmk Hready. destruct (Hmk _ Hready) as (n' & Hn' & Hready').
  unfold setup_files.
  erewrite bind_Ok; cycle 1.
  { unfold os_makedirs. cbv zeta. rewrite Hn'. reflexivity. }
  set (w1 := emit _ _).
  destruct (downloads_ok file_map dest_folder w1 Hready') as (w2 & E2 & L2 & R2).
  exists w2. split_and!; [done | | done].
  apply (leads_trans [_] _ w w1 w2); [| done].
  split; [done |]. subst w1. simpl. unfold outline. by rewrite omap_app.
Qed.

Lemma install_dependencies_ok w :
  repo_ready (fs w) (cwd w) →
  ∃ w', install_dependencies w = (Ok tt, w') ∧
        leads [SRun [sys_executable; "-m"; "pip"; "install";
                     "huggingface_hub[hf_transfer]"] (Some 0);
               SRun [sys_executable; "-m"; "pip"; "install"; "gradio"] (Some 0);
               SRun [sys_executable; "-m"; "pip"; "install"; "-r";
                     "flux-fp8-api/requirements.txt"] (Some 0)] w w' ∧
        repo_ready (fs w') (cwd w).
Proof.
  intros Hready. unfold install_dependencies.
  erewrite bind_Ok by reflexivity.
  set (w0 := emit _ w).
  destruct (run_command_ok [sys_executable; "-m"; "pip"; "install";
                            "huggingface_hub[hf_transfer]"] None None w0)
    as (w1 & E1 & L1 & R1 & _).
  erewrite bind_Ok by exact E1. specialize (R1 Hready).
  destruct (run_command_ok [sys_executable; "-m"; "pip"; "install"; "gradio"]
              None None w1) as (w2 & E2 & L2 & R2 & _).
  erewrite bind_Ok by exact E2.
  pose proof L1 as [C1 _]. pose proof L2 as [C2 _].
  rewrite <- C1 in R1. specialize (R2 R1).
  assert (Hfound : path_exists (fs w2)
            (resolve (cwd w2) (os_path_join "flux-fp8-api" "requirements.txt"))
          = true).
  { rewrite C2. by destruct R2. }
  erewrite bind_Ok; cycle 1.
  { unfold os_path_exists. rewrite Hfound. reflexivity. }
  destruct (run_command_ok [sys_executable; "-m"; "pip"; "install"; "-r";
                            os_path_join "flux-fp8-api" "requirements.txt"]
              None None w2) as (w3 & E3 & L3 & R3 & _).
  rewrite <- C2 in R2. specialize (R3 R2).
  exists w3. split_and!; [done | | by rewrite C2, C1 in R3].
  apply (leads_trans [] _ w w0 w3); [apply leads_print |].
  apply (leads_trans [_] _ w0 w1 w3); [done |].
  by apply (leads_trans [_] _ w1 w2 w3).
Qed.

Lemma clone_flux_repository_ok w :
  path_exists (fs w) (resolve (cwd w) repo_name) = false →
  ∃ w', clone_flux_repository w = (Ok tt, w') ∧
        leads [SRun ["git"; "clone"; repo_url] (Some 0)] w w' ∧
        repo_ready (fs w') (cwd w).
Proof.
  intros Habsent. unfold clone_flux_repository.
  erewrite bind_Ok; cycle 1.
  { unfold os_path_exists. rewrite Habsent. reflexivity. }
  cbv beta. change (negb false) with true. cbv iota.
  erewrite bind_Ok by reflexivity.
  set (w0 := emit _ w).
  destruct (run_command_ok ["git"; "clone"; repo_url] None None w0)
    as (w1 & E1 & L1 & _ & R1).
  exists w1. split_and!; [done | | by apply R1].
  apply (leads_trans [] _ w w0 w1); [apply leads_print | done].
Qed.

Lemma run_main_script_ok w :
  repo_ready (fs w) (cwd w) →
  ∃ w', run_main_script "flux-fp8-api" w = (Ok tt, w') ∧
        cwd w' = resolve (cwd w) "flux-fp8-api" ∧
        outline (trace w')
        = outline (trace w) ++ [SChdir "flux-fp8-api" true;
                                SRun [sys_executable; "main_gr.py"] (Some 0)].
Proof.
  intros Hready. unfold run_main_script.
  erewrite bind_Ok by reflexivity.
  erewrite bind_Ok; cycle 1.
  { unfold os_chdir. cbv zeta.
    change (is_dir _ _) with (is_dir (fs w) (resolve (cwd w) "flux-fp8-api")).
    rewrite (repo_dir _ _ Hready). reflexivity. }
  erewrite bind_Ok by reflexivity.
  set (w0 := emit _ _).
  destruct (run_command_ok [sys_executable; "main_gr.py"] None None w0)
    as (w1 & E1 & [C1 O1] & _).
  exists w1. split_and!; [done | by rewrite C1 |].
  rewrite O1. subst w0. simpl. unfold outline. rewrite !omap_app. simpl.
  by rewrite !app_nil_r, <- app_assoc.
Qed.

Lemma collection_ok msg file_map dest_folder w :
  (∀ n, repo_ready n (cwd w) →
        ∃ n', mkdirs n (resolve (cwd w) dest_folder) = Some n' ∧
              repo_ready n' (cwd w)) →
  repo_ready (fs w) (cwd w) →
  ∃ w', (print msg ;; setup_files file_map dest_folder) w = (Ok tt, w') ∧
        leads (SMakedirs dest_folder true :: (download_step dest_folder <$> file_map))
          w w' ∧
        repo_ready (fs w') (cwd w').
Proof.
  intros Hmk Hready. erewrite bind_Ok by reflexivity.
  set (w0 := emit _ w).
  destruct (setup_files_ok file_map dest_folder w0 Hmk Hready)
    as (w1 & E1 & L1 & R1).
  exists w1. split_and!; [done | | ].
  - apply (leads_trans [] _ w w0 w1); [apply leads_print | done].
  - destruct L1 as [-> _]. done.
Qed.

Lemma provision_ok w :
  path_exists (fs w) (resolve (cwd w) repo_name) = false →
  ∃ w', provision w = (Ok tt, w') ∧
        cwd w' = resolve (cwd w) "flux-fp8-api" ∧
        outline (trace w') = outline (trace w) ++ fresh_run_steps.
Proof.
  intros Habsent. unfold provision.
  destruct (clone_flux_repository_ok w Habsent) as (w1 & E1 & [C1 O1] & R1).
  erewrite bind_Ok by exact E1. rewrite <- C1 in R1.
  destruct (install_dependencies_ok w1 R1) as (w2 & E2 & [C2 O2] & R2).
  erewrite bind_Ok by exact E2. rewrite <- C2 in R2.
  unfold setup_model_files, setup_encoder_files, setup_t5_files.
  destruct (collection_ok "Setting up model files..." model_files
              "flux-fp8-api" w2) as (w3 & E3 & [C3 O3] & R3); [| done |].
  { intros n Hn. exists n. by rewrite make_repo. }
  erewrite bind_Ok by exact E3.
  destruct (collection_ok "Setting up encoder files..." encoder_files
              "flux-fp8-api" w3) as (w4 & E4 & [C4 O4] & R4); [| done |].
  { intros n Hn. exists n. by rewrite make_repo. }
  erewrite bind_Ok by exact E4.
  destruct (collection_ok "Setting up T5 encoder files..." t5_files
              (os_path_join "flux-fp8-api" "t5") w4)
    as (w5 & E5 & [C5 O5] & R5); [| done |].
  { intros n Hn. by apply make_t5. }
  erewrite bind_Ok by exact E5.
  destruct (run_main_script_ok w5 R5) as (w6 & E6 & C6 & O6).
  exists w6. split_and!; [done | congruence |].
  rewrite O6, O5, O4, O3, O2, O1. rewrite <- !app_assoc. reflexivity.
Qed.

(** C3.  Take a run that starts where the clone directory does not exist,
    in an outside world where every command exits with code 0, the clone
    delivers the repository with its requirements file, and no command
    removes it or puts a regular file in the place of the [t5] directory.
    The run then performs, in this order: one clone, three package
    installs, the creation of the destination directory and one download
    for the model, the same for the decoder, the creation of the [t5]
    directory and five downloads for the encoder (eight downloads in
    all), the change of working directory and the launch of the entry
    script.  It ends normally with exit status 0, and its last output is
    the completion line with the duration from the clock reading taken
    after the first line of output to the one taken when the steps are
    done.  Neither destination directory is there at the start.  After each
    of the three creations the download that follows is started in a file
    system where the directory created is in place; and when no download
    removes the directory it downloads into, each of the eight downloads
    is started with its destination directory in place. *)
Theorem fresh_run root dir vars :
  path_exists root (resolve dir repo_name) = false →
  let out := main (boot root dir vars) in
  let w0 := emit (EPrint "Starting setup process...") (boot root dir vars) in
  let w1 := (provision w0).2 in
  out.1 = Ok tt ∧
  exit_status out.1 = 0 ∧
  outline (trace out.2) = fresh_run_steps ∧
  cwd out.2 = resolve dir "flux-fp8-api" ∧
  (provision w0).1 = Ok tt ∧
  last (trace out.2)
  = Some (EPrint (nl +:+ "Process completed in "
                  +:+ format_duration (clock w0) (clock w1) +:+ " seconds.")) ∧
  is_dir root (resolve dir "flux-fp8-api") = false ∧
  is_dir root (resolve dir (os_path_join "flux-fp8-api" "t5")) = false ∧
  made_for_use (trace out.2) ∧
  ((∀ w c repo_id filename dest_dir,
       argv c = download_command repo_id filename dest_dir →
       is_dir (fs w) (resolve (cwd w) dest_dir) = true →
       is_dir (spawn w c).2 (resolve (cwd w) dest_dir) = true) →
   Forall housed (trace out.2)).
Proof.
  intros Habsent out w0 w1.
  assert (Hmade : made_for_use (trace out.2)).
  { destruct (makes_main (boot root dir vars)) as (d & Hd & HF).
    subst out. by rewrite Hd. }
  assert (Hhoused :
    (∀ w c repo_id filename dest_dir,
        argv c = download_command repo_id filename dest_dir →
        is_dir (fs w) (resolve (cwd w) dest_dir) = true →
        is_dir (spawn w c).2 (resolve (cwd w) dest_dir) = true) →
    Forall housed (trace out.2)).
  { intros Hkeep.
    destruct (houses_main Hkeep (boot root dir vars)) as (d & Hd & HF).
    subst out. rewrite Hd. exact HF. }
  destruct (provision_ok w0 Habsent) as (w1' & E1 & C1 & O1).
  assert (Hout : out
    = (Ok tt,
       emit (EPrint (nl +:+ "Process completed in "
                     +:+ format_duration (clock w0) (clock w1') +:+ " seconds."))
         w1')).
  { subst out. unfold main.
    erewrite bind_Ok by reflexivity.
    erewrite bind_Ok by reflexivity.
    fold w0.
    erewrite bind_Ok; cycle 1.
    { unfold try_except. rewrite E1. reflexivity. }
    by erewrite bind_Ok by reflexivity. }
  subst w1. rewrite E1.
  split_and!; [rewrite ?Hout; simpl .. | exact Hmade | exact Hhoused];
    [done | done | | done | done | | | ].
  - unfold outline in *. rewrite omap_app, O1. simpl. by rewrite ?app_nil_r.
  - by rewrite last_snoc.
  - by apply absent_is_no_dir.
  - apply absent_is_no_dir. rewrite resolve_t5, <- resolve_repo.
    by apply absent_child.
Qed.

End FreshRun.

(** ** More on the single functions *)

(** X1.  [run_command] returns normally exactly when the child exits with
    code 0; it then has printed only the line that announces the command,
    the child was started with the arguments, environment and directory
    given, and the world is left with the file system of the child.  However
    the child ends, [run_command] changes neither the working directory nor
    any dictionary of the parent. *)
Theorem run_command_returns_iff_exit_zero command env workdir w :
  let w1 := emit (EPrint ("Running command: " +:+ join " " command)) w in
  let c := Call command (d ← env; heap w !! d) workdir in
  let out := run_command command env workdir w in
  (out.1 = Ok tt ↔ (spawn w1 c).1 = Exited 0) ∧
  (out.1 = Ok tt →
     out.2 = mkWorld (spawn w1 c).2 (cwd w) (heap w)
               (trace w ++ [EPrint ("Running command: " +:+ join " " command);
                            ESpawn c (snap w) (Exited 0)])) ∧
  cwd out.2 = cwd w ∧
  heap out.2 = heap w.
Proof.
  intros w1 c out. subst out. rewrite run_command_eq. fold w1 c.
  destruct (spawn w1 c) as [[rc | msg] root']; simpl.
  - case_bool_decide as Hrc; simpl.
    + subst rc. split_and!; [done | | done | done].
      intros _. unfold emit, set_fs; simpl. by rewrite <- app_assoc.
    + split_and!; [| done | done | done].
      split; [done | congruence].
  - split_and!; done.
Qed.

(** X2.  When [repo_folder] is not a directory (it is missing, or a regular
    file), [run_main_script] raises the [OSError] of [os.chdir]: the working
    directory stays as it was, the entry script is not launched, and not
    even its announcement is printed. *)
Theorem run_main_script_without_directory repo_folder w :
  is_dir (fs w) (resolve (cwd w) repo_folder) = false →
  let out := run_main_script repo_folder w in
  (∃ msg, out.1 = Raise (OSError msg)) ∧
  out.2 = mkWorld (fs w) (cwd w) (heap w)
            (trace w ++ [EPrint ("Changing directory to " +:+ repo_folder +:+ "...");
                         EChdir repo_folder false]).
Proof.
  intros Hdir out. subst out. unfold run_main_script.
  erewrite bind_Ok by reflexivity.
  erewrite bind_Raise; cycle 1.
  { unfold os_chdir; simpl. rewrite Hdir. reflexivity. }
  simpl. split; [by eexists |]. unfold emit; simpl. by rewrite <- app_assoc.
Qed.

(** X3.  When the two named packages install and the requirements file
    exists in the file system the second install leaves, the third command
    of [install_dependencies] is [pip install -r] on that file, started from
    that file system; [install_dependencies] returns normally exactly when
    this third command exits with code 0, and the missing-file line is not
    printed. *)
Theorem install_with_requirements_file w root1 root2 :
  let pip1 := Call [sys_executable; "-m"; "pip"; "install";
                    "huggingface_hub[hf_transfer]"] None None in
  let pip2 := Call [sys_executable; "-m"; "pip"; "install"; "gradio"] None None in
  let pip3 := Call [sys_executable; "-m"; "pip"; "install"; "-r";
                    "flux-fp8-api/requirements.txt"] None None in
  let wa := emit (EPrint ("Running command: " +:+ join " " (argv pip1)))
              (emit (EPrint "Installing dependencies...") w) in
  spawn wa pip1 = (Exited 0, root1) →
  let wb := emit (EPrint ("Running command: " +:+ join " " (argv pip2)))
              (emit (ESpawn pip1 (snap wa) (Exited 0)) (set_fs root1 wa)) in
  spawn wb pip2 = (Exited 0, root2) →
  path_exists root2 (resolve (cwd w) "flux-fp8-api/requirements.txt") = true →
  let out := install_dependencies w in
  ∃ res tail,
    trace out.2
    = trace w ++ [EPrint "Installing dependencies...";
                  EPrint ("Running command: " +:+ join " " (argv pip1));
                  ESpawn pip1 (snap wa) (Exited 0);
                  EPrint ("Running command: " +:+ join " " (argv pip2));
                  ESpawn pip2 (snap wb) (Exited 0);
                  EPrint ("Running command: " +:+ join " " (argv pip3));
                  ESpawn pip3 (Snapshot root2 (cwd w) (environ w)) res] ++ tail ∧
    only_prints tail ∧
    (out.1 = Ok tt ↔ res = Exited 0) ∧
    EPrint "Requirements file not found: flux-fp8-api/requirements.txt" ∉ tail.
Proof.
  intros pip1 pip2 pip3 wa H1 wb H2 Hreq out. subst out.
  unfold install_dependencies.
  erewrite bind_Ok by reflexivity.
  erewrite bind_Ok; cycle 1.
  { rewrite run_command_eq. cbv zeta.
    change (spawn _ _) with (spawn wa pip1). rewrite H1. reflexivity. }
  erewrite bind_Ok; cycle 1.
  { rewrite run_command_eq. cbv zeta.
    change (spawn _ _) with (spawn wb pip2). rewrite H2. reflexivity. }
  erewrite bind_Ok; cycle 1.
  { unfold os_path_exists. simpl.
    change (os_path_join "flux-fp8-api" "requirements.txt")
      with "flux-fp8-api/requirements.txt".
    rewrite Hreq. reflexivity. }
  cbv beta iota. rewrite run_command_eq. cbv zeta.
  change (os_path_join "flux-fp8-api" "requirements.txt")
    with "flux-fp8-api/requirements.txt".
  match goal with |- context [spawn ?w0 ?c0] =>
    destruct (spawn w0 c0) as [[rc | msg] root'] end; simpl.
  - case_bool_decide as Hrc; simpl.
    + exists (Exited rc), []. rewrite <- !app_assoc. subst rc.
      split_and!; [done | by constructor | done | by apply not_elem_of_nil].
    + eexists (Exited rc), [_; _]. rewrite <- !app_assoc.
      split_and!; [done | by repeat constructor | |].
      * split; [done | congruence].
      * intros Hin. apply elem_of_cons in Hin as [[=] | Hin].
        by apply list_elem_of_singleton in Hin.
  - exists (SpawnFailed msg), []. rewrite <- !app_assoc.
    split_and!; [done | by constructor | done | by apply not_elem_of_nil].
Qed.

(** X4.  When the clone directory does not exist, [clone_flux_repository]
    runs exactly one command, [git clone] of the fixed URL, with no [env=]
    and no [cwd=], in the working directory of the process.  It returns
    normally exactly when that command exits with code 0: what the command
    left in the file system is not looked at. *)
Theorem clone_runs_git_when_directory_absent w :
  path_exists (fs w) (resolve (cwd w) repo_name) = false →
  let out := clone_flux_repository w in
  let c := Call ["git"; "clone"; "https://github.com/miike-ai/flux-fp8-api.git"]
             None None in
  ∃ res tail,
    trace out.2
    = trace w ++ [EPrint "Cloning repository from https://github.com/miike-ai/flux-fp8-api.git...";
                  EPrint "Running command: git clone https://github.com/miike-ai/flux-fp8-api.git";
                  ESpawn c (snap w) res] ++ tail ∧
    only_prints tail ∧
    (out.1 = Ok tt ↔ res = Exited 0) ∧
    (∀ returncode, res = Exited returncode →
       fs out.2
       = (spawn (emit (EPrint ("Running command: " +:+ join " " (argv c)))
                   (emit (EPrint ("Cloning repository from " +:+ repo_url +:+ "..."))
                      w)) c).2).
Proof.
  intros Habsent out c. subst out. unfold clone_flux_repository.
  erewrite bind_Ok; cycle 1.
  { unfold os_path_exists. rewrite Habsent. reflexivity. }
  cbv beta. change (negb false) with true. cbv iota.
  erewrite bind_Ok by reflexivity.
  rewrite run_command_eq. subst c. cbv zeta. simpl argv.
  match goal with |- context [spawn ?w0 ?c0] =>
    change (spawn _ _) with (spawn w0 c0);
    destruct (spawn w0 c0) as [[rc | msg] root'] end; simpl.
  - case_bool_decide as Hrc; simpl.
    + exists (Exited rc), []. rewrite <- !app_assoc. subst rc.
      split_and!; [done | by constructor | done | done].
    + eexists (Exited rc), [_; _]. rewrite <- !app_assoc.
      split_and!; [done | by repeat constructor | | done].
      split; [done | congruence].
  - exists (SpawnFailed msg), []. rewrite <- !app_assoc.
    split_and!; [done | by constructor | done | done].
Qed.

(** X5.  One download returns normally exactly when the download tool exits
    with code 0, and exactly then its last output is the line that reports
    the file as downloaded: that line never follows a failed download. *)
Theorem download_reports_success_iff_exit_zero repo_id filename dest_dir w :
  let out := download_with_huggingface_cli repo_id filename dest_dir w in
  let w3 := emit (EPrint ("Running command: "
                          +:+ join " " (download_command repo_id filename dest_dir)))
              (set_heap (heap w ++ [download_env (environ w)])
                 (emit (EPrint ("Downloading " +:+ repo_id +:+ "/" +:+ filename
                                +:+ " to " +:+ dest_dir
                                +:+ " using huggingface-cli...")) w)) in
  let c := Call (download_command repo_id filename dest_dir)
             (Some (download_env (environ w))) None in
  (out.1 = Ok tt ↔ (spawn w3 c).1 = Exited 0) ∧
  (out.1 = Ok tt ↔
   last (trace out.2)
   = Some (EPrint ("Downloaded " +:+ filename +:+ " successfully to " +:+ dest_dir
                   +:+ "."))).
Proof.
  intros out w3 c. subst out. rewrite download_eq. cbv zeta. fold w3 c.
  destruct (spawn w3 c) as [[rc | msg] root']; simpl.
  - case_bool_decide as Hrc; simpl.
    + subst rc. split; [done |]. by rewrite last_snoc.
    + split; [split; [done | congruence] |].
      rewrite last_snoc. split; [done | intros [=]].
  - split; [done |]. rewrite last_snoc. done.
Qed.

(** ** The order of the steps *)

Lemma outline_snoc tr e :
  outline (tr ++ [e]) = outline tr ++ from_option (λ s, [s]) [] (step_of e).
Proof. unfold outline. rewrite omap_app. simpl. by destruct (step_of e). Qed.

Lemma runs_bind_Ok {A B} p1 p2 (m : M A) (k : A → M B) w a w1 :
  m w = (Ok a, w1) → runs p1 m w → runs p2 (k a) w1 → runs (p1 ++ p2) (m ≫= k) w.
Proof.
  intros Hm H1 H2. unfold runs in *. rewrite (bind_Ok _ _ _ _ _ Hm).
  rewrite Hm in H1. simpl in H1.
  destruct (k a w1) as [[b | e] w2]; simpl in *.
  - by rewrite H2, H1, app_assoc.
  - destruct H2 as (n & s & s' & Hn & Hs & Hf & Ho).
    exists (length p1 + n)%nat, s, s'. split_and!; [| done | done |].
    + rewrite lookup_app_r by lia. by replace (length p1 + n - length p1)%nat with n by lia.
    + rewrite Ho, H1, take_app_add, <- !app_assoc. done.
Qed.

Lemma runs_bind_Raise {A B} p1 p2 (m : M A) (k : A → M B) w e w1 :
  m w = (Raise e, w1) → runs p1 m w → runs (p1 ++ p2) (m ≫= k) w.
Proof.
  intros Hm H1. unfold runs in *. rewrite (bind_Raise _ _ _ _ _ Hm).
  rewrite Hm in H1. simpl in *.
  destruct H1 as (n & s & s' & Hn & Hs & Hf & Ho).
  exists n, s, s'. split_and!; [by apply lookup_app_l_Some | done | done |].
  rewrite Ho. do 2 f_equal. rewrite take_app_le; [done |].
  apply lookup_lt_Some in Hn. lia.
Qed.

(** Binding an action that always goes through its plan. *)
Lemma runs_bind {A B} p1 p2 (m : M A) (k : A → M B) w :
  runs p1 m w → (∀ a w1, runs p2 (k a) w1) → runs (p1 ++ p2) (m ≫= k) w.
Proof.
  intros H1 H2. destruct (m w) as [[a | e] w1] eqn:Hm.
  - by eapply runs_bind_Ok.
  - by eapply runs_bind_Raise.
Qed.

Lemma runs_print {A} s (k : M A) p w :
  (∀ w1, runs p k w1) → runs p (print s ;; k) w.
Proof.
  intros Hk. unfold runs in *. erewrite bind_Ok by reflexivity.
  specialize (Hk (emit (EPrint s) w)). simpl in Hk.
  rewrite outline_snoc in Hk. simpl in Hk. by rewrite app_nil_r in Hk.
Qed.

Lemma runs_run_command command env workdir w :
  runs [SRun command (Some 0)] (run_command command env workdir) w.
Proof.
  unfold runs. rewrite run_command_eq. cbv zeta.
  match goal with |- context [spawn ?w0 ?c0] =>
    destruct (spawn w0 c0) as [[rc | msg] root'] end; simpl.
  - case_bool_decide as Hrc; simpl.
    + subst rc. rewrite !outline_snoc. simpl. by rewrite app_nil_r.
    + exists 0%nat, (SRun command (Some rc)), (SRun command (Some 0)).
      split_and!; [done | done | |].
      * simpl. apply bool_decide_eq_false. congruence.
      * rewrite !outline_snoc. simpl. by rewrite !app_nil_r.
  - exists 0%nat, (SRun command None), (SRun command (Some 0)).
    split_and!; [done | done | done |].
    rewrite !outline_snoc. simpl. by rewrite !app_nil_r.
Qed.

Lemma runs_download repo_id filename dest_dir w :
  runs [SRun (download_command repo_id filename dest_dir) (Some 0)]
    (download_with_huggingface_cli repo_id filename dest_dir) w.
Proof.
  unfold runs. rewrite download_eq. cbv zeta.
  match goal with |- context [spawn ?w0 ?c0] =>
    destruct (spawn w0 c0) as [[rc | msg] root'] end; simpl.
  - case_bool_decide as Hrc; simpl.
    + subst rc. rewrite !outline_snoc. simpl. by rewrite !app_nil_r.
    + eexists 0%nat, (SRun _ (Some rc)), _.
      split_and!; [done | done | |].
      * simpl. apply bool_decide_eq_false. congruence.
      * rewrite !outline_snoc. simpl. by rewrite !app_nil_r.
  - eexists 0%nat, (SRun _ None), _.
    split_and!; [done | done | done |].
    rewrite !outline_snoc. simpl. by rewrite !app_nil_r.
Qed.

Lemma runs_os_makedirs name w : runs [SMakedirs name true] (os_makedirs name) w.
Proof.
  unfold runs, os_makedirs. destruct (mkdirs _ _); simpl.
  - by rewrite outline_snoc.
  - exists 0%nat, (SMakedirs name false), (SMakedirs name true).
    split_and!; [done | done | done |]. by rewrite outline_snoc.
Qed.

Lemma runs_os_chdir name w : runs [SChdir name true] (os_chdir name) w.
Proof.
  unfold runs, os_chdir. destruct (is_dir _ _); simpl.
  - by rewrite outline_snoc.
  - exists 0%nat, (SChdir name false), (SChdir name true).
    split_and!; [done | done | done |]. by rewrite outline_snoc.
Qed.

Lemma runs_downloads (file_map : list (string * (string * string))) dest_folder w :
  runs (download_step dest_folder <$> file_map)
    (for_each file_map (λ '(filename, (repo_id, filename_in_repo)),
       let dest_path := os_path_join dest_folder filename in
       download_with_huggingface_cli repo_id filename_in_repo dest_folder)) w.
Proof.
  revert w. induction file_map as [| [filename [repo_id filename_in_repo]] fm IH];
    intros w; simpl.
  - unfold runs. simpl. by rewrite app_nil_r.
  - apply (runs_bind [_]); [apply runs_download | intros _ w1; apply IH].
Qed.

Lemma runs_setup_files file_map dest_folder w :
  runs (SMakedirs dest_folder true :: (download_step dest_folder <$> file_map))
    (setup_files file_map dest_folder) w.
Proof.
  unfold setup_files.
  apply (runs_bind [_]); [apply runs_os_makedirs | intros _ w1; apply runs_downloads].
Qed.

(** X6.  Whatever the outside world does, [setup_files] first creates the
    destination directory and then downloads the entries of the file map one
    by one in the order of the map.  When it returns, every entry has been
    downloaded by one command that exited with code 0; when it raises, the
    step that went wrong is the last thing it did and the entries after it
    were not tried. *)
Theorem setup_files_in_map_order file_map dest_folder w :
  let out := setup_files file_map dest_folder w in
  let plan := SMakedirs dest_folder true :: (download_step dest_folder <$> file_map) in
  match out.1 with
  | Ok _ => outline (trace out.2) = outline (trace w) ++ plan
  | Raise _ =>
      ∃ (n : nat) s s',
        plan !! n = Some s' ∧ attempt s = attempt s' ∧ succeeded s = false ∧
        outline (trace out.2) = outline (trace w) ++ take n plan ++ [s]
  end.
Proof. apply runs_setup_files. Qed.

Lemma runs_print_at {A} s (k : M A) p w :
  runs p k (emit (EPrint s) w) → runs p (print s ;; k) w.
Proof.
  intros Hk. unfold runs in *. erewrite bind_Ok by reflexivity.
  simpl in Hk. rewrite outline_snoc in Hk. simpl in Hk. by rewrite app_nil_r in Hk.
Qed.

(** [install_dependencies] is [named_installs] followed by the test for the
    requirements file and what depends on it, and the test answers
    [requirements_found]. *)
Lemma install_dependencies_split w :
  install_dependencies w
  = (named_installs ;;
     found ← os_path_exists (os_path_join "flux-fp8-api" "requirements.txt");
     if found : bool then
       run_command [sys_executable; "-m"; "pip"; "install"; "-r";
                    os_path_join "flux-fp8-api" "requirements.txt"] None None
     else
       print ("Requirements file not found: "
              +:+ os_path_join "flux-fp8-api" "requirements.txt")) w.
Proof.
  unfold install_dependencies, named_installs, mbind, M_bind, print.
  set (w0 := emit _ w).
  destruct (run_command _ None None w0) as [[[] | e1] w1]; [| done].
  by destruct (run_command _ None None w1) as [[[] | e2] w2].
Qed.

Lemma os_path_exists_requirements w :
  os_path_exists (os_path_join "flux-fp8-api" "requirements.txt") w
  = (Ok (requirements_found w), w).
Proof. reflexivity. Qed.

(** The third install is in the plan of [install_dependencies] exactly when
    the requirements file exists once the two named packages are in. *)
Lemma runs_install_dependencies w :
  runs ([SRun [sys_executable; "-m"; "pip"; "install";
               "huggingface_hub[hf_transfer]"] (Some 0)] ++
        [SRun [sys_executable; "-m"; "pip"; "install"; "gradio"] (Some 0)] ++
        (if requirements_found (named_installs w).2
         then [SRun [sys_executable; "-m"; "pip"; "install"; "-r";
                     "flux-fp8-api/requirements.txt"] (Some 0)]
         else []))
    install_dependencies w.
Proof.
  unfold install_dependencies. apply runs_print_at.
  set (w0 := emit (EPrint "Installing dependencies...") w).
  assert (Hn : named_installs w
    = (run_command [sys_executable; "-m"; "pip"; "install";
                    "huggingface_hub[hf_transfer]"] None None ;;
       run_command [sys_executable; "-m"; "pip"; "install"; "gradio"] None None) w0).
  { unfold named_installs. by erewrite bind_Ok by reflexivity. }
  rewrite Hn. clear Hn.
  pose proof (runs_run_command [sys_executable; "-m"; "pip"; "install";
                                "huggingface_hub[hf_transfer]"] None None w0) as H1.
  destruct (run_command [sys_executable; "-m"; "pip"; "install";
                         "huggingface_hub[hf_transfer]"] None None w0)
    as [[[] | e1] w1] eqn:E1; [| by eapply runs_bind_Raise].
  erewrite (bind_Ok _ _ w0) by exact E1.
  eapply runs_bind_Ok; [exact E1 | exact H1 |].
  pose proof (runs_run_command [sys_executable; "-m"; "pip"; "install"; "gradio"]
                None None w1) as H2.
  destruct (run_command [sys_executable; "-m"; "pip"; "install"; "gradio"]
              None None w1) as [[[] | e2] w2] eqn:E2; [| by eapply runs_bind_Raise].
  eapply runs_bind_Ok; [exact E2 | exact H2 |].
  cbv zeta. unfold runs, requirements_found. simpl snd.
  erewrite bind_Ok by reflexivity. cbv beta.
  destruct (path_exists _ _).
  - apply runs_run_command.
  - simpl. rewrite outline_snoc. simpl. by rewrite !app_nil_r.
Qed.

(** The clone is in the plan of [clone_flux_repository] exactly when the
    clone directory does not exist. *)
Lemma runs_clone_flux_repository w :
  runs (if negb (path_exists (fs w) (resolve (cwd w) repo_name))
        then [SRun ["git"; "clone"; repo_url] (Some 0)] else [])
    clone_flux_repository w.
Proof.
  unfold clone_flux_repository, runs. unfold os_path_exists at 1 2 3.
  erewrite bind_Ok by reflexivity. cbv beta.
  destruct (path_exists _ _); simpl negb; cbv iota.
  - simpl. rewrite outline_snoc. simpl. by rewrite !app_nil_r.
  - apply (runs_print _ _ [_]). intros w1. apply runs_run_command.
Qed.

Lemma runs_run_main_script repo_folder w :
  runs [SChdir repo_folder true; SRun [sys_executable; "main_gr.py"] (Some 0)]
    (run_main_script repo_folder) w.
Proof.
  unfold run_main_script. apply runs_print. intros w1.
  apply (runs_bind [_] [_]); [apply runs_os_chdir | intros _ w2].
  apply runs_print. intros w3. apply runs_run_command.
Qed.

Lemma runs_provision w :
  runs (pipeline (negb (path_exists (fs w) (resolve (cwd w) repo_name)))
          (requirements_found ((clone_flux_repository ;; named_installs) w).2))
    provision w.
Proof.
  unfold provision, pipeline.
  pose proof (runs_clone_flux_repository w) as H1.
  destruct (clone_flux_repository w) as [[[] | e1] w1] eqn:E1;
    [| by eapply runs_bind_Raise].
  erewrite (bind_Ok _ _ w) by exact E1.
  eapply runs_bind_Ok; [exact E1 | exact H1 |].
  rewrite (app_assoc [_; _]).
  apply runs_bind; [apply runs_install_dependencies | intros _ w2].
  apply runs_bind; [apply runs_print; intros; apply runs_setup_files | intros _ w3].
  apply runs_bind; [apply runs_print; intros; apply runs_setup_files | intros _ w4].
  apply runs_bind; [apply runs_print; intros; apply runs_setup_files | intros _ w5].
  apply runs_run_main_script.
Qed.

(** X7.  The steps of every run, whatever the outside world does, follow one
    fixed order: the clone, the two package installs, the install of the
    requirements file, then for the model, the decoder and the encoder the
    creation of the destination directory and the downloads, then the change
    of directory and the launch.  The clone is one of the steps exactly when
    [os.path.exists] does not find the clone directory at the start of the
    run, and the install of the requirements file is one of them exactly
    when [os.path.exists] finds that file once the two named packages have
    been installed.  A run that ends normally has done all the steps, each
    with success; a run that ends otherwise has done the first [n] of them
    with success and then the next one, which went wrong, and nothing after
    it. *)
Theorem run_follows_the_pipeline root dir vars :
  let out := main (boot root dir vars) in
  let cloned := negb (path_exists root (resolve dir repo_name)) in
  let installed :=
    requirements_found (up_to_requirements_test (boot root dir vars)).2 in
  match out.1 with
  | Ok _ => outline (trace out.2) = pipeline cloned installed
  | Raise e =>
      e = SystemExit 1 ∧
      ∃ (n : nat) s s',
        pipeline cloned installed !! n = Some s' ∧
        attempt s = attempt s' ∧ succeeded s = false ∧
        outline (trace out.2) = take n (pipeline cloned installed) ++ [s]
  end.
Proof.
  intros out cloned installed. subst out cloned installed.
  unfold main, up_to_requirements_test.
  erewrite !(bind_Ok (print _)) by reflexivity.
  erewrite !(bind_Ok time_time) by reflexivity.
  set (w0 := emit _ _).
  pose proof (runs_provision w0) as Hp. unfold runs in Hp.
  change (fs w0) with root in Hp. change (cwd w0) with dir in Hp.
  set (plan := pipeline _ _) in *. clearbody plan.
  pose proof (steady_provision w0) as Hs.
  unfold mbind, M_bind, try_except, print, time_time, sys_exit, raise.
  destruct (provision w0) as [[[] | e] w1]; simpl in *.
  - rewrite outline_snoc. simpl. by rewrite app_nil_r.
  - specialize (Hs ltac:(by repeat constructor)).
    destruct e as [code | cmd rc | msg]; simpl in *.
    + destruct Hs as [-> _]. done.
    + done.
    + split; [done |]. rewrite outline_snoc. simpl. by rewrite app_nil_r.
Qed.

(** ** How a run ends *)

(** X8.  The exit status of a run is 0 or 1.  It is 0 exactly when the last
    output is the completion line, and exactly when nothing went wrong in
    the run: every command exited with code 0, every directory was created,
    the change of directory succeeded and no failure report was printed. *)
Theorem exit_status_zero_iff_all_went_well root dir vars :
  let out := main (boot root dir vars) in
  (exit_status out.1 = 0 ∨ exit_status out.1 = 1) ∧
  (exit_status out.1 = 0 ↔
   ∃ t0 t1,
     last (trace out.2)
     = Some (EPrint (nl +:+ "Process completed in " +:+ format_duration t0 t1
                     +:+ " seconds."))) ∧
  (exit_status out.1 = 0 ↔ calm (trace out.2)).
Proof.
  intros out. subst out.
  pose proof (main_verdict (boot root dir vars)) as Hv.
  destruct (main _) as [r w']. simpl in *.
  destruct Hv as [pre t0 t1 Hpre | pre c s rc Hpre Hrc | pre e msg Hpre He];
    [by constructor | ..]; simpl.
  - split_and!; [by left | |].
    + split; [| done]. intros _. exists t0, t1. by rewrite last_snoc.
    + split; [| done]. intros _. by apply calm_snoc.
  - split_and!; [by right | |].
    + split; [done |]. intros (t0 & t1 & Hlast).
      rewrite (last_app_cons pre) in Hlast. simpl in Hlast. by inversion Hlast.
    + split; [done |]. intros Hcalm.
      apply Forall_app in Hcalm as [_ Hcalm]. apply Forall_cons in Hcalm as [Hc _].
      by rewrite calm_event_nonzero in Hc.
  - split_and!; [by right | |].
    + split; [done |]. intros (t0 & t1 & Hlast).
      rewrite (last_app_cons pre) in Hlast. simpl in Hlast. by inversion Hlast.
    + split; [done |]. intros Hcalm.
      apply Forall_app in Hcalm as [_ Hcalm]. apply Forall_cons in Hcalm as [Hc _].
      destruct e as [m | name [] | name [] | c s [rc | m]]; simpl in *; done.
Qed.

(** ** What the child processes are given *)

Lemma settled_landed dir vars w : settled dir vars w → landed dir vars w.
Proof. intros (? & ? & ?). split_and!; [by left | done | done]. Qed.

Lemma guarded_ret dir vars {A} (a : A) : guarded dir vars (mret a).
Proof. intros w Hw. split; [done | apply extends_refl]. Qed.

Lemma guarded_bind dir vars {A B} (m : M A) (k : A → M B) :
  guarded dir vars m → (∀ a, guarded dir vars (k a)) → guarded dir vars (m ≫= k).
Proof.
  intros Hm Hk w Hw. destruct (Hm w Hw) as [Hw1 He1].
  unfold mbind, M_bind. destruct (m w) as [[a | e] w1]; simpl in *; [| done].
  destruct (Hk a w1 Hw1) as [Hw2 He2]. split; [done | by eapply extends_trans].
Qed.

Lemma guarded_print dir vars s : guarded dir vars (print s).
Proof.
  intros w Hw. split; [done |]. exists [EPrint s]. by repeat constructor.
Qed.

Lemma guarded_os_path_exists dir vars name : guarded dir vars (os_path_exists name).
Proof. intros w Hw. split; [done | apply extends_refl]. Qed.

Lemma guarded_time_time dir vars : guarded dir vars time_time.
Proof. intros w Hw. split; [done | apply extends_refl]. Qed.

Lemma guarded_os_makedirs dir vars name : guarded dir vars (os_makedirs name).
Proof.
  intros w Hw. unfold os_makedirs. destruct (mkdirs _ _); simpl.
  - split; [done |]. exists [EMakedirs name true]. by repeat constructor.
  - split; [done |]. exists [EMakedirs name false]. by repeat constructor.
Qed.

Ltac children H :=
  repeat (constructor; [first [exact I | apply H] |]); constructor.

Lemma guarded_run_command dir vars command :
  command ∈ setup_commands → guarded dir vars (run_command command None None).
Proof.
  intros Hin w (Hcwd & Hheap & Henv). rewrite run_command_eq. cbv zeta.
  assert (Hchild : ∀ r, child_ok dir vars
            (ESpawn (Call command None None) (snap w) r)).
  { intros r. simpl. split_and!; [done | done |]. right. left. done. }
  match goal with |- context [spawn ?w0 ?c0] =>
    destruct (spawn w0 c0) as [[rc | msg] root'] end; simpl.
  - case_bool_decide; simpl; (split; [done |]); eexists;
      (split; [simpl; rewrite <- ?app_assoc; reflexivity |]);
      children Hchild.
  - split; [done |]. eexists. split; [simpl; rewrite <- ?app_assoc; reflexivity |].
    children Hchild.
Qed.

Lemma guarded_download dir vars repo_id filename dest_dir :
  guarded dir vars (download_with_huggingface_cli repo_id filename dest_dir).
Proof.
  intros w (Hcwd & Hheap & Henv).
  destruct (download_frame repo_id filename dest_dir w Hheap) as (C & E & H).
  split; [split_and!; congruence |].
  rewrite download_eq. cbv zeta.
  assert (Hchild : ∀ r, child_ok dir vars
            (ESpawn (Call (download_command repo_id filename dest_dir)
                       (Some (download_env (environ w))) None)
               (Snapshot (fs w) (cwd w) (environ w)) r)).
  { intros r. simpl. split_and!; [done | done |]. left.
    exists repo_id, filename, dest_dir. by rewrite Henv. }
  match goal with |- context [spawn ?w0 ?c0] =>
    assert (Hsnap : snap w0 = Snapshot (fs w) (cwd w) (environ w));
    [| rewrite Hsnap; destruct (spawn w0 c0) as [[rc | msg] root']] end.
  { unfold snap, environ; simpl. by destruct (heap w). }
  - case_bool_decide; simpl; eexists;
      (split; [simpl; rewrite <- ?app_assoc; reflexivity |]);
      children Hchild.
  - simpl. eexists. split; [simpl; rewrite <- ?app_assoc; reflexivity |].
    children Hchild.
Qed.

Lemma guarded_for_each dir vars {A} (xs : list A) (body : A → M unit) :
  (∀ x, guarded dir vars (body x)) → guarded dir vars (for_each xs body).
Proof.
  intros Hbody. induction xs as [| x xs IH]; simpl.
  - apply guarded_ret.
  - apply guarded_bind; [apply Hbody | intros _; apply IH].
Qed.

Lemma guarded_setup_files dir vars file_map dest_folder :
  guarded dir vars (setup_files file_map dest_folder).
Proof.
  unfold setup_files. apply guarded_bind; [apply guarded_os_makedirs | intros _].
  apply guarded_for_each. intros [filename [repo_id filename_in_repo]].
  apply guarded_download.
Qed.

Lemma guarded_install_dependencies dir vars : guarded dir vars install_dependencies.
Proof.
  unfold install_dependencies.
  apply guarded_bind; [apply guarded_print | intros _].
  apply guarded_bind; [apply guarded_run_command; set_solver | intros _].
  apply guarded_bind; [apply guarded_run_command; set_solver | intros _].
  apply guarded_bind; [apply guarded_os_path_exists | intros []].
  - apply guarded_run_command.
    change (os_path_join "flux-fp8-api" "requirements.txt")
      with "flux-fp8-api/requirements.txt".
    set_solver.
  - apply guarded_print.
Qed.

Lemma guarded_clone_flux_repository dir vars : guarded dir vars clone_flux_repository.
Proof.
  unfold clone_flux_repository.
  apply guarded_bind; [apply guarded_os_path_exists | intros []]; simpl.
  - apply guarded_print.
  - apply guarded_bind; [apply guarded_print | intros _].
    apply guarded_run_command. set_solver.
Qed.

Lemma ended_of_guarded dir vars {A} (m : M A) :
  guarded dir vars m → guarded_end dir vars m.
Proof.
  intros Hm w Hw. destruct (Hm w Hw) as [H1 H2].
  split; [by apply settled_landed | done].
Qed.

Lemma ended_bind dir vars {A B} (m : M A) (k : A → M B) :
  guarded dir vars m → (∀ a, guarded_end dir vars (k a)) →
  guarded_end dir vars (m ≫= k).
Proof.
  intros Hm Hk w Hw. destruct (Hm w Hw) as [Hw1 He1].
  unfold mbind, M_bind. destruct (m w) as [[a | e] w1]; simpl in *.
  - destruct (Hk a w1 Hw1) as [Hw2 He2]. split; [done | by eapply extends_trans].
  - split; [by apply settled_landed | done].
Qed.

Lemma ended_run_main_script dir vars :
  guarded_end dir vars (run_main_script "flux-fp8-api").
Proof.
  intros w (Hcwd & Hheap & Henv). unfold run_main_script.
  erewrite bind_Ok by reflexivity.
  destruct (is_dir (fs w) (resolve (cwd w) "flux-fp8-api")) eqn:Hdir; cycle 1.
  { erewrite bind_Raise; cycle 1.
    { unfold os_chdir; simpl. rewrite Hdir. reflexivity. }
    split; [split_and!; [by left | done | done] |]. eexists.
    split; [simpl; rewrite <- ?app_assoc; reflexivity | by repeat constructor]. }
  erewrite bind_Ok; cycle 1.
  { unfold os_chdir; simpl. rewrite Hdir. reflexivity. }
  - erewrite bind_Ok by reflexivity. rewrite run_command_eq. cbv zeta.
    assert (Hchild : ∀ r, child_ok dir vars
              (ESpawn (Call [sys_executable; "main_gr.py"] None None)
                 (Snapshot (fs w) (resolve (cwd w) "flux-fp8-api") (environ w)) r)).
    { intros r. simpl. split_and!; [done | done |]. right. right. by rewrite Hcwd. }
    match goal with |- context [spawn ?w0 ?c0] =>
      destruct (spawn w0 c0) as [[rc | msg] root'] end; simpl.
    + case_bool_decide; simpl;
        (split; [split_and!; [right; by rewrite Hcwd | done | done] |]); eexists;
        (split; [simpl; rewrite <- ?app_assoc; reflexivity |]);
        children Hchild.
    + split; [split_and!; [right; by rewrite Hcwd | done | done] |]. eexists.
      split; [simpl; rewrite <- ?app_assoc; reflexivity |].
      children Hchild.
Qed.

Lemma ended_provision dir vars : guarded_end dir vars provision.
Proof.
  unfold provision, setup_model_files, setup_encoder_files, setup_t5_files.
  apply ended_bind; [apply guarded_clone_flux_repository | intros _].
  apply ended_bind; [apply guarded_install_dependencies | intros _].
  apply ended_bind; [| intros _].
  { apply guarded_bind; [apply guarded_print | intros _; apply guarded_setup_files]. }
  apply ended_bind; [| intros _].
  { apply guarded_bind; [apply guarded_print | intros _; apply guarded_setup_files]. }
  apply ended_bind; [| intros _].
  { apply guarded_bind; [apply guarded_print | intros _; apply guarded_setup_files]. }
  apply ended_run_main_script.
Qed.

Lemma ended_main dir vars : guarded_end dir vars main.
Proof.
  intros w Hw. unfold main.
  erewrite bind_Ok by reflexivity. erewrite bind_Ok by reflexivity.
  set (w0 := emit _ w).
  assert (Hw0 : settled dir vars w0) by done.
  destruct (ended_provision dir vars w0 Hw0) as [[Hc [Hh He]] (d & Hd & HF)].
  unfold mbind, M_bind, try_except, print, time_time, sys_exit, raise.
  destruct (provision w0) as [[[] | e] w1]; simpl in *.
  - split; [done |]. eexists (_ :: d ++ [_]).
    split; [simpl; rewrite Hd; simpl; rewrite <- ?app_assoc; reflexivity |].
    constructor; [done |]. apply Forall_app. by repeat constructor.
  - destruct (is_Exception e); simpl.
    + split; [done |]. eexists (_ :: d ++ [_]).
      split; [simpl; rewrite Hd; simpl; rewrite <- ?app_assoc; reflexivity |].
      constructor; [done |]. apply Forall_app. by repeat constructor.
    + split; [done |]. eexists (_ :: d).
      split; [simpl; rewrite Hd; simpl; rewrite <- ?app_assoc; reflexivity |].
      by constructor.
Qed.

(** X9.  In every run, whatever the outside world does, [os.environ] is at
    the end what it was at the start, and the working directory is the one
    the run started in or the repository under it.  Every child process is
    started with no [cwd=] while the parent's environment is the initial
    one, and is of one of three kinds: a download, given the copy of the
    initial environment with the two download settings, in the start
    directory; the clone or a package install, with no [env=], in the start
    directory; the launch, with no [env=], in the repository.  So the
    download settings reach no other command than the downloads. *)
Theorem children_of_a_run root dir vars :
  let out := main (boot root dir vars) in
  environ out.2 = vars ∧
  (cwd out.2 = dir ∨ cwd out.2 = resolve dir "flux-fp8-api") ∧
  ∀ c s r, ESpawn c s r ∈ trace out.2 →
    at_environ s = vars ∧ cwd_arg c = None ∧
    ((∃ repo_id filename dest_dir,
        argv c = download_command repo_id filename dest_dir ∧
        env_arg c = Some (download_env vars) ∧ at_cwd s = dir) ∨
     (argv c ∈ setup_commands ∧ env_arg c = None ∧ at_cwd s = dir) ∨
     (argv c = [sys_executable; "main_gr.py"] ∧ env_arg c = None ∧
      at_cwd s = resolve dir "flux-fp8-api")).
Proof.
  intros out. subst out.
  destruct (ended_main dir vars (boot root dir vars)) as [(Hc & Hh & He) (d & Hd & HF)];
    [done |].
  split_and!; [done | done |].
  intros c s r Hin. simpl in Hd. rewrite Hd in Hin.
  by apply (proj1 (Forall_forall _ _) HF) in Hin.
Qed.

(** ** A regular file where the repository goes *)

Lemma mkdirs_file n p : find n p = Some File → mkdirs n p = None.
Proof.
  revert n. induction p as [| c p IH]; intros [| es]; simpl; try done.
  destruct (es !! c) as [nc |]; [| done]. simpl. intros H. by rewrite (IH nc H).
Qed.

Lemma leads_nil w w' : cwd w' = cwd w → outline (trace w') = outline (trace w) →
  leads [] w w'.
Proof. intros C O. split; [done | by rewrite app_nil_r]. Qed.

Section FileInTheWay.

(** An outside world where every command exits with code 0 and no command
    removes a regular file that sits where the repository goes. *)
Hypothesis all_succeed : ∀ w c, (spawn w c).1 = Exited 0.
Hypothesis file_stays :
  ∀ w c, find (fs w) (resolve (cwd w) repo_name) = Some File →
         find (spawn w c).2 (resolve (cwd w) repo_name) = Some File.

Lemma run_command_beside_file command env workdir w :
  find (fs w) (resolve (cwd w) repo_name) = Some File →
  ∃ w', run_command command env workdir w = (Ok tt, w') ∧
        leads [SRun command (Some 0)] w w' ∧
        find (fs w') (resolve (cwd w') repo_name) = Some File ∧
        trace w ⊆ trace w'.
Proof.
  intros Hfile. rewrite run_command_eq. cbv zeta.
  match goal with |- context [spawn ?w0 ?c0] =>
    pose proof (all_succeed w0 c0) as Hok;
    pose proof (file_stays w0 c0 Hfile) as Hkeep;
    destruct (spawn w0 c0) as [res root'] end.
  simpl in *. subst res. simpl.
  eexists. split; [reflexivity |]. split_and!; [| done | simpl; set_solver].
  split; [done |]. simpl. rewrite !outline_snoc. simpl. by rewrite !app_nil_r.
Qed.

Lemma install_beside_file w :
  find (fs w) (resolve (cwd w) repo_name) = Some File →
  ∃ w', install_dependencies w = (Ok tt, w') ∧
        leads [SRun [sys_executable; "-m"; "pip"; "install";
                     "huggingface_hub[hf_transfer]"] (Some 0);
               SRun [sys_executable; "-m"; "pip"; "install"; "gradio"] (Some 0)]
          w w' ∧
        find (fs w') (resolve (cwd w') repo_name) = Some File ∧
        trace w ⊆ trace w'.
Proof.
  intros Hfile. unfold install_dependencies.
  erewrite bind_Ok by reflexivity.
  set (w0 := emit _ w).
  destruct (run_command_beside_file
              [sys_executable; "-m"; "pip"; "install";
               "huggingface_hub[hf_transfer]"] None None w0 Hfile)
    as (w1 & E1 & L1 & F1 & T1).
  erewrite bind_Ok by exact E1.
  destruct (run_command_beside_file
              [sys_executable; "-m"; "pip"; "install"; "gradio"] None None w1 F1)
    as (w2 & E2 & L2 & F2 & T2).
  erewrite bind_Ok by exact E2.
  assert (Hreq : path_exists (fs w2)
            (resolve (cwd w2) (os_path_join "flux-fp8-api" "requirements.txt"))
          = false).
  { unfold path_exists. rewrite resolve_requirements, find_app, <- resolve_repo.
    change "flux-fp8-api" with repo_name. by rewrite F2. }
  erewrite bind_Ok; cycle 1.
  { unfold os_path_exists. rewrite Hreq. reflexivity. }
  cbv beta iota. eexists. split; [reflexivity |]. split_and!.
  - apply (leads_trans [] _ w w0); [apply leads_print |].
    apply (leads_trans [_] [_] w0 w1); [done |].
    apply (leads_trans [_] [] w1 w2); [done | apply leads_print].
  - done.
  - subst w0. simpl in *. set_solver.
Qed.

Lemma setup_files_beside_file file_map w :
  find (fs w) (resolve (cwd w) repo_name) = Some File →
  setup_files file_map "flux-fp8-api" w
  = (Raise (OSError "[Errno 17] File exists: 'flux-fp8-api'"),
     emit (EMakedirs "flux-fp8-api" false) w).
Proof.
  intros Hfile. unfold setup_files.
  erewrite bind_Raise; [reflexivity |].
  unfold os_makedirs. cbv zeta.
  change (resolve (cwd w) "flux-fp8-api") with (resolve (cwd w) repo_name).
  rewrite (mkdirs_file _ _ Hfile). unfold path_exists. by rewrite Hfile.
Qed.

(** X10.  The existence test of the clone step accepts anything.  Take a
    run that starts where a regular file has the name of the clone
    directory, the commands exit with code 0 and leave that file alone.  The
    clone is skipped, the two named packages are installed, the requirements
    file is not found, and the creation of the model's destination directory
    fails on the file: nothing is downloaded or launched, the last output is
    the unexpected-error message with the [FileExistsError] text, and the
    exit status is 1. *)
Theorem regular_file_in_place_of_repository root dir vars :
  find root (resolve dir repo_name) = Some File →
  let out := main (boot root dir vars) in
  exit_status out.1 = 1 ∧
  outline (trace out.2)
  = [SRun [sys_executable; "-m"; "pip"; "install"; "huggingface_hub[hf_transfer]"]
       (Some 0);
     SRun [sys_executable; "-m"; "pip"; "install"; "gradio"] (Some 0);
     SMakedirs "flux-fp8-api" false] ∧
  EPrint "Repository flux-fp8-api already exists. Skipping clone." ∈ trace out.2 ∧
  last (trace out.2)
  = Some (EPrint "An unexpected error occurred: [Errno 17] File exists: 'flux-fp8-api'").
Proof.
  intros Hfile out. subst out. unfold main.
  erewrite bind_Ok by reflexivity. erewrite bind_Ok by reflexivity.
  set (w0 := emit _ _).
  assert (Hp : ∃ w3,
    provision w0
    = (Raise (OSError "[Errno 17] File exists: 'flux-fp8-api'"),
       emit (EMakedirs "flux-fp8-api" false) w3) ∧
    outline (trace w3)
    = [SRun [sys_executable; "-m"; "pip"; "install"; "huggingface_hub[hf_transfer]"]
         (Some 0);
       SRun [sys_executable; "-m"; "pip"; "install"; "gradio"] (Some 0)] ∧
    EPrint "Repository flux-fp8-api already exists. Skipping clone." ∈ trace w3).
  { unfold provision.
    erewrite bind_Ok; cycle 1.
    { unfold clone_flux_repository, os_path_exists.
      erewrite bind_Ok by reflexivity. cbv beta.
      change (fs w0) with root. change (cwd w0) with dir.
      unfold path_exists. rewrite Hfile. reflexivity. }
    set (w1 := emit _ w0).
    destruct (install_beside_file w1 Hfile) as (w2 & E2 & [C2 O2] & F2 & T2).
    erewrite bind_Ok by exact E2.
    unfold setup_model_files.
    erewrite bind_Raise; cycle 1.
    { erewrite bind_Ok by reflexivity. by apply setup_files_beside_file. }
    eexists. split; [reflexivity |]. split.
    - simpl. rewrite outline_snoc. simpl. rewrite app_nil_r. by rewrite O2.
    - simpl. apply elem_of_app. left. apply T2. subst w1. simpl. set_solver. }
  destruct Hp as (w3 & E3 & O3 & T3).
  unfold mbind, M_bind, try_except, print, sys_exit, raise. rewrite E3. simpl.
  split_and!; [done | | | by rewrite last_snoc].
  - rewrite !outline_snoc. simpl. by rewrite app_nil_r, O3.
  - set_solver.
Qed.

End FileInTheWay.

(** ** A run where the clone delivers nothing *)

Lemma mkdirs_prefix n p q : is_Some (mkdirs n (p ++ q)) → is_Some (mkdirs n p).
Proof.
  revert n. induction p as [| c p IH]; intros [| es]; simpl;
    try by (intros [? ?]; done || eauto).
  - destruct q; simpl; intros [? ?]; done.
  - intros [n' H]. destruct (mkdirs _ (p ++ q)) as [n1 |] eqn:H1; [| done].
    destruct (IH _ (mk_is_Some _ _ H1)) as [n2 ->]. by eauto.
Qed.

Lemma mkdirs_keeps_way n p n' q :
  mkdirs n p = Some n' → is_Some (mkdirs n q) → is_Some (mkdirs n' q).
Proof.
  revert n n' q. induction p as [| c p IH]; intros [| es] n' q H; simpl in H;
    try done.
  - by inversion H.
  - destruct (mkdirs _ p) as [n1 |] eqn:H1; [| done]. inversion H; subst.
    destruct q as [| c' q]; simpl; [by eauto |].
    destruct (decide (c = c')) as [<- | Hne].
    + rewrite lookup_insert_eq. simpl. intros [n2 H2].
      destruct (mkdirs (default (Dir ∅) (es !! c)) q) as [n3 |] eqn:H3; [| done].
      destruct (IH _ _ q H1 (mk_is_Some _ _ H3)) as [n4 ->]. by eauto.
    + rewrite lookup_insert_ne by done. intros [n2 H2].
      destruct (mkdirs _ q); [by eauto | done].
Qed.

Lemma is_dir_prefix n p q : is_dir n (p ++ q) = true → is_dir n p = true.
Proof.
  unfold is_dir. rewrite find_app.
  destruct (find n p) as [[| es] |]; simpl; [| done | done].
  by destruct q.
Qed.

Lemma absent_below n p q : path_exists n p = false → path_exists n (p ++ q) = false.
Proof. unfold path_exists. rewrite find_app. by destruct (find n p). Qed.

Section BareRun.

(** An outside world where every command exits with code 0, no command
    delivers the requirements file, none puts a regular file in the way of
    the directories of the repository, and none removes the repository
    directory once it is there. *)
Hypothesis all_succeed : ∀ w c, (spawn w c).1 = Exited 0.
Hypothesis no_requirements :
  ∀ w c, lacks_requirements (fs w) (cwd w) → lacks_requirements (spawn w c).2 (cwd w).
Hypothesis way_clear :
  ∀ w c, way_is_clear (fs w) (cwd w) → way_is_clear (spawn w c).2 (cwd w).
Hypothesis repo_stays :
  ∀ w c, has_repo (fs w) (cwd w) → has_repo (spawn w c).2 (cwd w).

Lemma bare_run_command command env workdir w :
  ∃ w', run_command command env workdir w = (Ok tt, w') ∧
        leads [SRun command (Some 0)] w w' ∧
        trace w ⊆ trace w' ∧
        (lacks_requirements (fs w) (cwd w) → lacks_requirements (fs w') (cwd w')) ∧
        (way_is_clear (fs w) (cwd w) → way_is_clear (fs w') (cwd w')) ∧
        (has_repo (fs w) (cwd w) → has_repo (fs w') (cwd w')).
Proof.
  rewrite run_command_eq. cbv zeta.
  match goal with |- context [spawn ?w0 ?c0] =>
    pose proof (all_succeed w0 c0) as Hok;
    pose proof (no_requirements w0 c0) as H1;
    pose proof (way_clear w0 c0) as H2;
    pose proof (repo_stays w0 c0) as H3;
    destruct (spawn w0 c0) as [res root'] end.
  simpl in *. subst res. simpl.
  eexists. split; [reflexivity |].
  split_and!; [| simpl; set_solver | done | done | done].
  split; [done |]. simpl. rewrite !outline_snoc. simpl. by rewrite !app_nil_r.
Qed.

Lemma bare_download repo_id filename dest_dir w :
  has_repo (fs w) (cwd w) → way_is_clear (fs w) (cwd w) →
  ∃ w', download_with_huggingface_cli repo_id filename dest_dir w = (Ok tt, w') ∧
        leads [SRun (download_command repo_id filename dest_dir) (Some 0)] w w' ∧
        trace w ⊆ trace w' ∧
        has_repo (fs w') (cwd w') ∧ way_is_clear (fs w') (cwd w').
Proof.
  intros Hrepo Hway. rewrite download_eq. cbv zeta.
  match goal with |- context [spawn ?w0 ?c0] =>
    pose proof (all_succeed w0 c0) as Hok;
    pose proof (way_clear w0 c0 Hway) as H2;
    pose proof (repo_stays w0 c0 Hrepo) as H3;
    destruct (spawn w0 c0) as [res root'] end.
  simpl in *. subst res. simpl.
  eexists. split; [reflexivity |].
  split_and!; [| simpl; set_solver | done | done].
  split; [done |]. simpl. rewrite !outline_snoc. simpl. by rewrite !app_nil_r.
Qed.

Lemma bare_downloads (file_map : list (string * (string * string))) dest_folder w :
  has_repo (fs w) (cwd w) → way_is_clear (fs w) (cwd w) →
  ∃ w', for_each file_map (λ '(filename, (repo_id, filename_in_repo)),
          let dest_path := os_path_join dest_folder filename in
          download_with_huggingface_cli repo_id filename_in_repo dest_folder) w
        = (Ok tt, w') ∧
        leads (download_step dest_folder <$> file_map) w w' ∧
        trace w ⊆ trace w' ∧
        has_repo (fs w') (cwd w') ∧ way_is_clear (fs w') (cwd w').
Proof.
  revert w. induction file_map as [| [filename [repo_id filename_in_repo]] fm IH];
    intros w Hrepo Hway; simpl.
  - exists w. split_and!; [done | | done | done | done].
    split; [done | by rewrite app_nil_r].
  - destruct (bare_download repo_id filename_in_repo dest_folder w Hrepo Hway)
      as (w1 & E1 & L1 & T1 & R1 & W1).
    erewrite bind_Ok by exact E1.
    destruct (IH w1 R1 W1) as (w2 & E2 & L2 & T2 & R2 & W2).
    exists w2. split_and!; [done | | set_solver | done | done].
    by apply (leads_trans [_] _ w w1 w2).
Qed.

Lemma bare_collection msg file_map dest_folder w :
  (∀ n, way_is_clear n (cwd w) →
        ∃ n', mkdirs n (resolve (cwd w) dest_folder) = Some n' ∧
              has_repo n' (cwd w) ∧ way_is_clear n' (cwd w)) →
  way_is_clear (fs w) (cwd w) →
  ∃ w', (print msg ;; setup_files file_map dest_folder) w = (Ok tt, w') ∧
        leads (SMakedirs dest_folder true :: (download_step dest_folder <$> file_map))
          w w' ∧
        trace w ⊆ trace w' ∧
        has_repo (fs w') (cwd w') ∧ way_is_clear (fs w') (cwd w').
Proof.
  intros Hmk Hway. destruct (Hmk _ Hway) as (n' & Hn' & Hrepo' & Hway').
  erewrite bind_Ok by reflexivity. unfold setup_files.
  erewrite bind_Ok; cycle 1.
  { unfold os_makedirs. cbv zeta.
    change (mkdirs _ _) with (mkdirs (fs w) (resolve (cwd w) dest_folder)).
    rewrite Hn'. reflexivity. }
  set (w1 := emit _ _).
  destruct (bare_downloads file_map dest_folder w1 Hrepo' Hway')
    as (w2 & E2 & L2 & T2 & R2 & W2).
  exists w2. split_and!; [done | | | done | done].
  - apply (leads_trans [_] _ w w1 w2); [| done].
    split; [done |]. subst w1. simpl. rewrite !outline_snoc. simpl.
    by rewrite app_nil_r.
  - subst w1. simpl in *. set_solver.
Qed.

Lemma bare_install_dependencies w :
  lacks_requirements (fs w) (cwd w) → way_is_clear (fs w) (cwd w) →
  ∃ w', install_dependencies w = (Ok tt, w') ∧
        leads [SRun [sys_executable; "-m"; "pip"; "install";
                     "huggingface_hub[hf_transfer]"] (Some 0);
               SRun [sys_executable; "-m"; "pip"; "install"; "gradio"] (Some 0)]
          w w' ∧
        trace w ⊆ trace w' ∧
        way_is_clear (fs w') (cwd w') ∧
        EPrint "Requirements file not found: flux-fp8-api/requirements.txt"
          ∈ trace w'.
Proof.
  intros Hlacks Hway. unfold install_dependencies.
  erewrite bind_Ok by reflexivity.
  set (w0 := emit _ w).
  destruct (bare_run_command [sys_executable; "-m"; "pip"; "install";
                              "huggingface_hub[hf_transfer]"] None None w0)
    as (w1 & E1 & L1 & T1 & N1 & W1 & _).
  erewrite bind_Ok by exact E1.
  destruct (bare_run_command [sys_executable; "-m"; "pip"; "install"; "gradio"]
              None None w1) as (w2 & E2 & L2 & T2 & N2 & W2 & _).
  erewrite bind_Ok by exact E2.
  erewrite bind_Ok; cycle 1.
  { unfold os_path_exists. rewrite (N2 (N1 Hlacks)). reflexivity. }
  cbv beta iota. eexists. split; [reflexivity |]. split_and!.
  - apply (leads_trans [] _ w w0); [apply leads_print |].
    apply (leads_trans [_] [_] w0 w1); [done |].
    apply (leads_trans [_] [] w1 w2); [done | apply leads_print].
  - subst w0. simpl in *. set_solver.
  - by apply W2, W1.
  - simpl. set_solver.
Qed.

Lemma bare_clone_flux_repository w :
  path_exists (fs w) (resolve (cwd w) repo_name) = false →
  way_is_clear (fs w) (cwd w) →
  ∃ w', clone_flux_repository w = (Ok tt, w') ∧
        leads [SRun ["git"; "clone"; repo_url] (Some 0)] w w' ∧
        trace w ⊆ trace w' ∧
        lacks_requirements (fs w') (cwd w') ∧ way_is_clear (fs w') (cwd w').
Proof.
  intros Habsent Hway. unfold clone_flux_repository.
  erewrite bind_Ok; cycle 1.
  { unfold os_path_exists. rewrite Habsent. reflexivity. }
  cbv beta. change (negb false) with true. cbv iota.
  erewrite bind_Ok by reflexivity.
  set (w0 := emit _ w).
  destruct (bare_run_command ["git"; "clone"; repo_url] None None w0)
    as (w1 & E1 & L1 & T1 & N1 & W1 & _).
  exists w1. split_and!; [done | | | | by apply W1].
  - apply (leads_trans [] _ w w0 w1); [apply leads_print | done].
  - subst w0. simpl in *. set_solver.
  - apply N1. unfold lacks_requirements. rewrite resolve_requirements.
    apply absent_below. by rewrite <- resolve_repo.
Qed.

Lemma bare_run_main_script w :
  has_repo (fs w) (cwd w) →
  ∃ w', run_main_script "flux-fp8-api" w = (Ok tt, w') ∧
        trace w ⊆ trace w' ∧
        outline (trace w')
        = outline (trace w) ++ [SChdir "flux-fp8-api" true;
                                SRun [sys_executable; "main_gr.py"] (Some 0)].
Proof.
  intros Hrepo. unfold run_main_script.
  erewrite bind_Ok by reflexivity.
  erewrite bind_Ok; cycle 1.
  { unfold os_chdir. cbv zeta.
    change (is_dir _ _) with (is_dir (fs w) (resolve (cwd w) "flux-fp8-api")).
    rewrite Hrepo. reflexivity. }
  erewrite bind_Ok by reflexivity.
  set (w0 := emit _ _).
  destruct (bare_run_command [sys_executable; "main_gr.py"] None None w0)
    as (w1 & E1 & [C1 O1] & T1 & _).
  exists w1. split_and!; [done | subst w0; simpl in *; set_solver |].
  rewrite O1. subst w0. simpl. rewrite !outline_snoc. simpl.
  by rewrite !app_nil_r, <- app_assoc.
Qed.

Lemma bare_provision w :
  path_exists (fs w) (resolve (cwd w) repo_name) = false →
  way_is_clear (fs w) (cwd w) →
  ∃ w', provision w = (Ok tt, w') ∧
        outline (trace w') = outline (trace w) ++ pipeline true false ∧
        EPrint "Requirements file not found: flux-fp8-api/requirements.txt"
          ∈ trace w'.
Proof.
  intros Habsent Hway. unfold provision.
  destruct (bare_clone_flux_repository w Habsent Hway)
    as (w1 & E1 & [C1 O1] & T1 & N1 & W1).
  erewrite bind_Ok by exact E1.
  destruct (bare_install_dependencies w1 N1 W1)
    as (w2 & E2 & [C2 O2] & T2 & W2 & M2).
  erewrite bind_Ok by exact E2.
  unfold setup_model_files, setup_encoder_files, setup_t5_files.
  destruct (bare_collection "Setting up model files..." model_files
              "flux-fp8-api" w2) as (w3 & E3 & [C3 O3] & T3 & R3 & W3); [| done |].
  { intros n Hn. unfold way_is_clear in Hn. rewrite resolve_t5 in Hn.
    destruct (mkdirs_prefix _ _ _ Hn) as [n' Hn'].
    rewrite <- resolve_repo in Hn'. exists n'. split_and!; [done | |].
    - by apply mkdirs_makes_dir in Hn'.
    - unfold way_is_clear. rewrite resolve_t5. by eapply mkdirs_keeps_way. }
  erewrite bind_Ok by exact E3.
  destruct (bare_collection "Setting up encoder files..." encoder_files
              "flux-fp8-api" w3) as (w4 & E4 & [C4 O4] & T4 & R4 & W4); [| done |].
  { intros n Hn. unfold way_is_clear in Hn. rewrite resolve_t5 in Hn.
    destruct (mkdirs_prefix _ _ _ Hn) as [n' Hn'].
    rewrite <- resolve_repo in Hn'. exists n'. split_and!; [done | |].
    - by apply mkdirs_makes_dir in Hn'.
    - unfold way_is_clear. rewrite resolve_t5. by eapply mkdirs_keeps_way. }
  erewrite bind_Ok by exact E4.
  destruct (bare_collection "Setting up T5 encoder files..." t5_files
              (os_path_join "flux-fp8-api" "t5") w4)
    as (w5 & E5 & [C5 O5] & T5 & R5 & W5); [| done |].
  { intros n [n' Hn']. exists n'. split_and!; [done | |].
    - apply mkdirs_makes_dir in Hn'. rewrite resolve_t5 in Hn'.
      unfold has_repo. rewrite resolve_repo. by eapply is_dir_prefix.
    - unfold way_is_clear. by eapply mkdirs_keeps_way. }
  erewrite bind_Ok by exact E5.
  destruct (bare_run_main_script w5 R5) as (w6 & E6 & T6 & O6).
  exists w6. split_and!; [done | | set_solver].
  rewrite O6, O5, O4, O3, O2, O1. unfold pipeline. simpl. rewrite <- !app_assoc.
  reflexivity.
Qed.


End BareRun.

(** ** A run over an earlier run *)

Lemma grows_bind {A B} (m : M A) (k : A → M B) :
  grows m → (∀ a, grows (k a)) → grows (m ≫= k).
Proof.
  intros Hm Hk w. specialize (Hm w). unfold mbind, M_bind.
  destruct (m w) as [[a | e] w1]; simpl in *; [| done].
  specialize (Hk a w1). set_solver.
Qed.

Lemma grows_print s : grows (print s).
Proof. intros w. simpl. set_solver. Qed.

Lemma grows_os_makedirs name : grows (os_makedirs name).
Proof. intros w. unfold os_makedirs. destruct (mkdirs _ _); simpl; set_solver. Qed.

Lemma grows_download repo_id filename dest_dir :
  grows (download_with_huggingface_cli repo_id filename dest_dir).
Proof.
  intros w.
  destruct (download_adds_any (λ _ _ _, True) repo_id filename dest_dir w)
    as (d & Hd & _); [done |]. rewrite Hd. set_solver.
Qed.

Lemma grows_for_each {A} (xs : list A) (body : A → M unit) :
  (∀ x, grows (body x)) → grows (for_each xs body).
Proof.
  intros Hbody. induction xs as [| x xs IH]; simpl.
  - by intros w.
  - apply grows_bind; [apply Hbody | intros _; apply IH].
Qed.

Lemma print_setup_files_grows msg file_map dest_folder :
  grows (print msg ;; setup_files file_map dest_folder).
Proof.
  apply grows_bind; [apply grows_print | intros _]. unfold setup_files.
  apply grows_bind; [apply grows_os_makedirs | intros _].
  apply grows_for_each. intros [filename [repo_id filename_in_repo]].
  apply grows_download.
Qed.

Section Rerun.

(** An outside world where every command exits with code 0 and no command
    takes the repository away. *)
Hypothesis all_succeed : ∀ w c, (spawn w c).1 = Exited 0.
Hypothesis tools_keep :
  ∀ w c, repo_ready (fs w) (cwd w) → repo_ready (spawn w c).2 (cwd w).

Lemma rerun_run_command command env workdir w :
  repo_ready (fs w) (cwd w) →
  ∃ w', run_command command env workdir w = (Ok tt, w') ∧
        leads [SRun command (Some 0)] w w' ∧
        trace w ⊆ trace w' ∧
        repo_ready (fs w') (cwd w').
Proof.
  intros Hready. rewrite run_command_eq. cbv zeta.
  match goal with |- context [spawn ?w0 ?c0] =>
    pose proof (all_succeed w0 c0) as Hok;
    pose proof (tools_keep w0 c0 Hready) as Hkeep;
    destruct (spawn w0 c0) as [res root'] end.
  simpl in *. subst res. simpl.
  eexists. split; [reflexivity |]. split_and!; [| simpl; set_solver | done].
  split; [done |]. simpl. rewrite !outline_snoc. simpl. by rewrite !app_nil_r.
Qed.

Lemma rerun_install_dependencies w :
  repo_ready (fs w) (cwd w) →
  ∃ w', install_dependencies w = (Ok tt, w') ∧
        leads [SRun [sys_executable; "-m"; "pip"; "install";
                     "huggingface_hub[hf_transfer]"] (Some 0);
               SRun [sys_executable; "-m"; "pip"; "install"; "gradio"] (Some 0);
               SRun [sys_executable; "-m"; "pip"; "install"; "-r";
                     "flux-fp8-api/requirements.txt"] (Some 0)] w w' ∧
        trace w ⊆ trace w' ∧
        repo_ready (fs w') (cwd w').
Proof.
  intros Hready. unfold install_dependencies.
  erewrite bind_Ok by reflexivity.
  set (w0 := emit _ w).
  destruct (rerun_run_command [sys_executable; "-m"; "pip"; "install";
                               "huggingface_hub[hf_transfer]"] None None w0 Hready)
    as (w1 & E1 & L1 & T1 & R1).
  erewrite bind_Ok by exact E1.
  destruct (rerun_run_command [sys_executable; "-m"; "pip"; "install"; "gradio"]
              None None w1 R1) as (w2 & E2 & L2 & T2 & R2).
  erewrite bind_Ok by exact E2.
  erewrite bind_Ok; cycle 1.
  { unfold os_path_exists. rewrite (proj1 R2). reflexivity. }
  cbv beta iota.
  destruct (rerun_run_command [sys_executable; "-m"; "pip"; "install"; "-r";
                               os_path_join "flux-fp8-api" "requirements.txt"]
              None None w2 R2) as (w3 & E3 & L3 & T3 & R3).
  exists w3. split_and!; [done | | subst w0; simpl in *; set_solver | done].
  apply (leads_trans [] _ w w0 w3); [apply leads_print |].
  apply (leads_trans [_] _ w0 w1 w3); [done |].
  by apply (leads_trans [_] _ w1 w2 w3).
Qed.

Lemma rerun_run_main_script w :
  repo_ready (fs w) (cwd w) →
  ∃ w', run_main_script "flux-fp8-api" w = (Ok tt, w') ∧
        trace w ⊆ trace w' ∧
        outline (trace w')
        = outline (trace w) ++ [SChdir "flux-fp8-api" true;
                                SRun [sys_executable; "main_gr.py"] (Some 0)].
Proof.
  intros Hready. unfold run_main_script.
  erewrite bind_Ok by reflexivity.
  erewrite bind_Ok; cycle 1.
  { unfold os_chdir. cbv zeta.
    change (is_dir _ _) with (is_dir (fs w) (resolve (cwd w) "flux-fp8-api")).
    rewrite (repo_dir _ _ Hready). reflexivity. }
  erewrite bind_Ok by reflexivity.
  rewrite run_command_eq. cbv zeta.
  match goal with |- context [spawn ?w0 ?c0] =>
    pose proof (all_succeed w0 c0) as Hok;
    destruct (spawn w0 c0) as [res root'] end.
  simpl in *. subst res. simpl.
  eexists. split; [reflexivity |]. split; [simpl; set_solver |].
  simpl. rewrite !outline_snoc. simpl. by rewrite !app_nil_r, <- app_assoc.
Qed.

(** X12.  The script keeps no record of what an earlier run did.  Take a
    run that starts where the repository is already in place, in an outside
    world where every command exits with code 0 and no command takes the
    repository away.  Only the clone is skipped: the run installs the three
    package sets again, creates the directories again (which changes
    nothing), issues all eight downloads again, changes directory and
    launches, and ends normally with exit status 0. *)
Theorem run_over_an_earlier_run root dir vars :
  repo_ready root dir →
  let out := main (boot root dir vars) in
  out.1 = Ok tt ∧
  exit_status out.1 = 0 ∧
  outline (trace out.2) = pipeline false true ∧
  EPrint "Repository flux-fp8-api already exists. Skipping clone." ∈ trace out.2.
Proof.
  intros Hready out. subst out. unfold main.
  erewrite bind_Ok by reflexivity. erewrite bind_Ok by reflexivity.
  set (w0 := emit _ _).
  assert (Hp : ∃ w6, provision w0 = (Ok tt, w6) ∧
    outline (trace w6) = outline (trace w0) ++ pipeline false true ∧
    EPrint "Repository flux-fp8-api already exists. Skipping clone." ∈ trace w6).
  { unfold provision.
    erewrite bind_Ok; cycle 1.
    { unfold clone_flux_repository, os_path_exists.
      erewrite bind_Ok by reflexivity. cbv beta.
      change (path_exists _ _) with (path_exists root (resolve dir "flux-fp8-api")).
      pose proof (repo_dir _ _ Hready) as Hdir. unfold is_dir in Hdir.
      unfold path_exists.
      destruct (find root (resolve dir "flux-fp8-api")) as [[| es] |]; [done | | done].
      reflexivity. }
    set (w1 := emit _ w0).
    destruct (rerun_install_dependencies w1 Hready) as (w2 & E2 & [C2 O2] & T2 & R2).
    erewrite bind_Ok by exact E2.
    unfold setup_model_files, setup_encoder_files, setup_t5_files.
    destruct (collection_ok all_succeed tools_keep "Setting up model files..."
                model_files "flux-fp8-api" w2) as (w3 & E3 & [C3 O3] & R3);
      [| done |].
    { intros n Hn. exists n. by rewrite make_repo. }
    erewrite bind_Ok by exact E3.
    destruct (collection_ok all_succeed tools_keep "Setting up encoder files..."
                encoder_files "flux-fp8-api" w3) as (w4 & E4 & [C4 O4] & R4);
      [| done |].
    { intros n Hn. exists n. by rewrite make_repo. }
    erewrite bind_Ok by exact E4.
    destruct (collection_ok all_succeed tools_keep "Setting up T5 encoder files..."
                t5_files (os_path_join "flux-fp8-api" "t5") w4)
      as (w5 & E5 & [C5 O5] & R5); [| done |].
    { intros n Hn. by apply make_t5. }
    erewrite bind_Ok by exact E5.
    destruct (rerun_run_main_script w5 R5) as (w6 & E6 & T6 & O6).
    exists w6. split_and!; [done | |].
    - rewrite O6, O5, O4, O3, O2.
      replace (outline (trace w1)) with (outline (trace w0)).
      + unfold pipeline. simpl. rewrite <- ?app_assoc. reflexivity.
      + symmetry.
        destruct (leads_print "Repository flux-fp8-api already exists. Skipping clone."
                    w0) as [_ Hl].
        by rewrite app_nil_r in Hl.
    - apply T6.
      pose proof (for_E5 := E5). pose proof (for_E4 := E4). pose proof (for_E3 := E3).
      apply (f_equal snd) in for_E5, for_E4, for_E3. simpl in *.
      rewrite <- for_E5. apply (print_setup_files_grows _ _ _ w4).
      rewrite <- for_E4. apply (print_setup_files_grows _ _ _ w3).
      rewrite <- for_E3. apply (print_setup_files_grows _ _ _ w2).
      apply T2. subst w1. simpl. set_solver. }
  destruct Hp as (w6 & E6 & O6 & M6).
  erewrite bind_Ok; cycle 1.
  { unfold try_except. rewrite E6. reflexivity. }
  erewrite bind_Ok by reflexivity.
  simpl. split_and!; [done | done | | set_solver].
  rewrite outline_snoc. simpl. by rewrite app_nil_r, O6.
Qed.

End Rerun.

End Script.

Example join_git : join " " ["git"; "clone"; "u"] = "git clone u".
Proof. reflexivity. Qed.

Example sample_run_status :
  exit_status (main python flaky_spawn unit still_clock no_duration error_str
                 empty_world).1 = 1.
Proof. vm_compute. reflexivity. Qed.

Example sample_run_outline :
  outline (trace (main python cloning_spawn unit still_clock no_duration error_str
                    empty_world).2)
  = fresh_run_steps python.
Proof. vm_compute. reflexivity. Qed.

Lemma find_plant n p x : find (plant n p x) p = Some x.
Proof.
  revert n. induction p as [| c p IH]; intros n; simpl; [done |].
  rewrite lookup_insert_eq. apply IH.
Qed.

Lemma cloning_spawn_succeeds w c : (cloning_spawn w c).1 = Exited 0.
Proof. unfold cloning_spawn. by case_bool_decide. Qed.

Lemma cloning_spawn_delivers w c :
  argv c = ["git"; "clone"; repo_url] → repo_ready (cloning_spawn w c).2 (cwd w).
Proof.
  intros Hc. unfold cloning_spawn. rewrite bool_decide_eq_true_2 by done. simpl.
  split.
  - unfold path_exists. rewrite resolve_requirements, find_app, <- resolve_repo.
    by rewrite find_plant.
  - rewrite resolve_t5, find_app, <- resolve_repo. by rewrite find_plant.
Qed.

Lemma cloning_spawn_keeps w c :
  repo_ready (fs w) (cwd w) → repo_ready (cloning_spawn w c).2 (cwd w).
Proof.
  intros Hready. destruct (decide (argv c = ["git"; "clone"; repo_url])) as [Hc | Hc].
  - by apply cloning_spawn_delivers.
  - unfold cloning_spawn. by rewrite bool_decide_eq_false_2.
Qed.

(** ** The claims at sample worlds *)

Lemma nonzero_exit_ends_the_run_witness :
  let out := main python flaky_spawn unit still_clock no_duration error_str
               empty_world in
  (∃ c s, trace out.2 !! 21%nat = Some (ESpawn c s (Exited 1))) ∧
  exit_status out.1 = 1 ∧
  length (drop 22 (trace out.2)) = 2%nat.
Proof.
  intros out.
  assert (H : ∃ c s, trace out.2 !! 21%nat = Some (ESpawn c s (Exited 1))).
  { eexists _, _. vm_compute. reflexivity. }
  split; [exact H |]. destruct H as (c & s & H).
  destruct (nonzero_exit_ends_the_run python flaky_spawn unit still_clock
              no_duration error_str (Dir ∅) ["home"; "user"] ∅ 21 c s 1 H)
    as [H1 H2]; [lia |].
  split; [exact H1 |]. fold empty_world in H2. fold out in H2. by rewrite H2.
Defined.

Lemma run_command_spawn_failure_counterexample :
  let command := ["huggingface-cli"; "download"] in
  let w := empty_world in
  let out := run_command missing_spawn error_str command None None w in
  (missing_spawn (emit (EPrint ("Running command: " +:+ join " " command)) w)
     (Call command None None)).1
  = SpawnFailed "[Errno 2] No such file or directory: 'huggingface-cli'" ∧
  out.1 = Raise (OSError "[Errno 2] No such file or directory: 'huggingface-cli'") ∧
  trace out.2
  = [EPrint "Running command: huggingface-cli download";
     ESpawn (Call command None None) (snap w)
       (SpawnFailed "[Errno 2] No such file or directory: 'huggingface-cli'")] ∧
  ¬ reports_and_exits out command.
Proof.
  split_and!; [reflexivity | reflexivity | reflexivity |].
  intros [H _]. vm_compute in H. discriminate.
Qed.

Lemma run_command_failures_witness :
  let command := ["huggingface-cli"; "download"] in
  (run_command missing_spawn error_str command None None empty_world).1
  = Raise (OSError "[Errno 2] No such file or directory: 'huggingface-cli'").
Proof.
  intros command.
  destruct (run_command_failures python missing_spawn unit still_clock no_duration
              error_str command None None empty_world) as (_ & H & _).
  by rewrite (H _ (Dir ∅) eq_refl).
Defined.

Lemma cloning_spawn_keeps_destination w c repo_id filename dest_dir :
  argv c = download_command repo_id filename dest_dir →
  is_dir (fs w) (resolve (cwd w) dest_dir) = true →
  is_dir (cloning_spawn w c).2 (resolve (cwd w) dest_dir) = true.
Proof.
  intros Hc Hdir. unfold cloning_spawn. rewrite Hc.
  by rewrite bool_decide_eq_false_2.
Qed.

Lemma fresh_run_witness :
  let out := main python cloning_spawn nat event_clock ticks error_str empty_world in
  let t5 := ["home"; "user"; "flux-fp8-api"; "t5"] in
  path_exists (Dir ∅) (resolve ["home"; "user"] repo_name) = false ∧
  exit_status out.1 = 0 ∧
  last (trace out.2) = Some (EPrint (nl +:+ "Process completed in 49 seconds.")) ∧
  Forall housed (trace out.2) ∧
  is_dir (Dir ∅) t5 = false ∧
  trace out.2 !! 24%nat = Some (EMakedirs "flux-fp8-api/t5" true) ∧
  (∃ c s r, trace out.2 !! 27%nat = Some (ESpawn c s r) ∧ is_dir (at_fs s) t5 = true) ∧
  is_dir (fs out.2) t5 = true.
Proof.
  intros out t5.
  assert (H : path_exists (Dir ∅) (resolve ["home"; "user"] repo_name) = false)
    by reflexivity.
  assert (Hmk : trace out.2 !! 24%nat = Some (EMakedirs "flux-fp8-api/t5" true))
    by (vm_compute; reflexivity).
  split; [exact H |].
  destruct (fresh_run python cloning_spawn nat event_clock ticks error_str
              cloning_spawn_succeeds cloning_spawn_delivers cloning_spawn_keeps
              (Dir ∅) ["home"; "user"] ∅ H)
    as (_ & Hstatus & _ & _ & _ & Hlast & _ & Ht5 & Hmade & Hhoused).
  split_and!; [exact Hstatus | | | exact Ht5 | exact Hmk | | by vm_compute].
  - fold empty_world in Hlast. fold out in Hlast. rewrite Hlast.
    vm_compute. reflexivity.
  - apply Hhoused. apply cloning_spawn_keeps_destination.
  - destruct (Hmade 24%nat _ Hmk) as (c & s & r & _ & _ & Hs & _ & Hdir).
    exists c, s, r. split; [exact Hs |].
    assert (Hcwd : at_cwd s = ["home"; "user"]).
    { vm_compute in Hs. by injection Hs as _ <- _. }
    by rewrite Hcwd in Hdir.
Defined.

Lemma install_without_requirements_file_witness :
  path_exists (Dir ∅) (resolve ["home"; "user"] "flux-fp8-api/requirements.txt")
  = false ∧
  (install_dependencies python quiet_spawn error_str empty_world).1 = Ok tt.
Proof.
  split; [reflexivity |].
  by rewrite (install_without_requirements_file python quiet_spawn error_str
                empty_world (Dir ∅) (Dir ∅) eq_refl eq_refl eq_refl).
Defined.

Lemma clone_skipped_when_directory_exists_witness :
  let w := boot (Dir (<["flux-fp8-api" := File]> ∅)) [] ∅ in
  path_exists (fs w) (resolve (cwd w) repo_name) = true ∧
  clone_flux_repository quiet_spawn error_str w
  = (Ok tt, emit (EPrint "Repository flux-fp8-api already exists. Skipping clone.") w).
Proof.
  intros w. assert (H : path_exists (fs w) (resolve (cwd w) repo_name) = true).
  { vm_compute. reflexivity. }
  split; [exact H |].
  exact (proj1 (clone_skipped_when_directory_exists quiet_spawn error_str w H)).
Defined.

Lemma download_leaves_parent_environment_witness :
  let w := boot (Dir ∅) [] (<["PATH" := "/usr/bin"]> ∅) in
  heap w ≠ [] ∧
  environ (download_with_huggingface_cli quiet_spawn error_str "Kijai/flux-fp8"
             "flux-vae-bf16.safetensors" "flux-fp8-api" w).2
  = <["PATH" := "/usr/bin"]> ∅.
Proof.
  intros w. assert (H : heap w ≠ []) by done.
  split; [exact H |].
  exact (proj1 (download_leaves_parent_environment quiet_spawn error_str
                  "Kijai/flux-fp8" "flux-vae-bf16.safetensors" "flux-fp8-api" w H)).
Defined.

Lemma destination_directory_exists_for_downloads_witness :
  let w := empty_world in
  let p := resolve (cwd w) "flux-fp8-api" in
  let out := setup_files quiet_spawn error_str encoder_files "flux-fp8-api" w in
  is_dir (fs w) p = false ∧
  ∃ m1 m2 c s r tail,
    trace out.2
    = trace w ++ EMakedirs "flux-fp8-api" true
                 :: EPrint m1 :: EPrint m2 :: ESpawn c s r :: tail ∧
    argv c = download_command "Kijai/flux-fp8" "flux-vae-bf16.safetensors"
               "flux-fp8-api" ∧
    is_dir (at_fs s) p = true.
Proof.
  intros w p out. split; [reflexivity |].
  destruct (destination_directory_exists_for_downloads quiet_spawn error_str
              encoder_files "flux-fp8-api" w (λ w' c H, H))
    as [(ok & rest & H1 & _ & _ & H4 & H5) _].
  assert (Hok : ok = true).
  { apply H4. intros [| [| [| [| k]]]]; vm_compute; discriminate. }
  destruct (H5 Hok) as (Hdir & _ & Hfirst).
  destruct (Hfirst _ _ _ _ eq_refl)
    as (m1 & m2 & c & s & r & tail & Hrest & Hc & Hs & _).
  exists m1, m2, c, s, r, tail. split_and!; [| exact Hc |].
  - fold out in H1. by rewrite H1, Hok, Hrest.
  - by rewrite Hs.
Defined.

Lemma run_main_script_launch_witness :
  let w := boot (Dir (<["flux-fp8-api" := Dir ∅]> ∅)) [] ∅ in
  is_dir (fs w) (resolve (cwd w) "flux-fp8-api") = true ∧
  cwd (run_main_script python quiet_spawn error_str "flux-fp8-api" w).2
  = ["flux-fp8-api"].
Proof.
  intros w. assert (H : is_dir (fs w) (resolve (cwd w) "flux-fp8-api") = true).
  { vm_compute. reflexivity. }
  split; [exact H |].
  destruct (run_main_script_launch python quiet_spawn error_str "flux-fp8-api" w H)
    as (res & tail & _ & _ & Hcwd & _).
  exact Hcwd.
Defined.


Example sample_run_missing_git :
  let out := main python missing_spawn unit still_clock no_duration error_str
               empty_world in
  exit_status out.1 = 1 ∧
  outline (trace out.2) = [SRun ["git"; "clone"; repo_url] None] ∧
  last (trace out.2)
  = Some (EPrint "An unexpected error occurred: [Errno 2] No such file or directory: 'git'").
Proof. vm_compute. done. Qed.

Lemma run_main_script_without_directory_witness :
  is_dir (fs empty_world) (resolve (cwd empty_world) "flux-fp8-api") = false ∧
  ∃ msg, (run_main_script python quiet_spawn error_str "flux-fp8-api" empty_world).1
         = Raise (OSError msg).
Proof.
  assert (H : is_dir (fs empty_world) (resolve (cwd empty_world) "flux-fp8-api")
              = false) by (vm_compute; reflexivity).
  split; [exact H |].
  exact (proj1 (run_main_script_without_directory python quiet_spawn error_str
                  "flux-fp8-api" empty_world H)).
Defined.

Lemma install_with_requirements_file_witness :
  let w := boot (plant (Dir ∅) ["flux-fp8-api"] repo_tree) [] ∅ in
  path_exists (fs w) (resolve (cwd w) "flux-fp8-api/requirements.txt") = true ∧
  ∃ res, (install_dependencies python quiet_spawn error_str w).1 = Ok tt ↔
         res = Exited 0.
Proof.
  intros w.
  assert (H : path_exists (fs w) (resolve (cwd w) "flux-fp8-api/requirements.txt")
              = true) by (vm_compute; reflexivity).
  split; [exact H |].
  destruct (install_with_requirements_file python quiet_spawn error_str w
              (fs w) (fs w) eq_refl eq_refl H) as (res & tail & _ & _ & Hiff & _).
  by exists res.
Defined.

Lemma clone_runs_git_when_directory_absent_witness :
  path_exists (fs empty_world) (resolve (cwd empty_world) repo_name) = false ∧
  ∃ res, (clone_flux_repository quiet_spawn error_str empty_world).1 = Ok tt ↔
         res = Exited 0.
Proof.
  assert (H : path_exists (fs empty_world) (resolve (cwd empty_world) repo_name)
              = false) by (vm_compute; reflexivity).
  split; [exact H |].
  destruct (clone_runs_git_when_directory_absent quiet_spawn error_str empty_world H)
    as (res & tail & _ & _ & Hiff & _).
  by exists res.
Defined.

Lemma regular_file_in_place_of_repository_witness :
  let root := Dir (<["flux-fp8-api" := File]> ∅) in
  find root (resolve [] repo_name) = Some File ∧
  exit_status (main python quiet_spawn unit still_clock no_duration error_str
                 (boot root [] ∅)).1 = 1.
Proof.
  intros root.
  assert (H : find root (resolve [] repo_name) = Some File)
    by (vm_compute; reflexivity).
  split; [exact H |].
  exact (proj1 (regular_file_in_place_of_repository python quiet_spawn unit
                  still_clock no_duration error_str
                  (λ w c, eq_refl) (λ w c Hf, Hf) root [] ∅ H)).
Defined.


Lemma run_over_an_earlier_run_witness :
  let root := plant (Dir ∅) ["flux-fp8-api"] repo_tree in
  repo_ready root [] ∧
  exit_status (main python cloning_spawn unit still_clock no_duration error_str
                 (boot root [] ∅)).1 = 0.
Proof.
  intros root.
  assert (H : repo_ready root []).
  { split; [vm_compute; reflexivity | vm_compute; discriminate]. }
  split; [exact H |].
  refine (proj1 (proj2 (run_over_an_earlier_run python cloning_spawn unit
                          still_clock no_duration error_str
                          cloning_spawn_succeeds cloning_spawn_keeps
                          root [] ∅ H))).
Defined.

Example pipeline_of_a_fresh_run : pipeline python true true = fresh_run_steps python.
Proof. reflexivity. Qed.

Example requirements_found_after_the_clone :
  requirements_found
    (up_to_requirements_test python cloning_spawn unit still_clock error_str
       empty_world).2 = true.
Proof. vm_compute. reflexivity. Qed.

Example requirements_not_found_without_the_clone :
  requirements_found
    (up_to_requirements_test python quiet_spawn unit still_clock error_str
       empty_world).2 = false ∧
  outline (trace (main python quiet_spawn unit still_clock no_duration error_str
                    empty_world).2)
  = pipeline python true false.
Proof. vm_compute. done. Qed.
